(** * bootstrap_python_env: a shallow embedding and its properties

    The script provisions a Python environment in five sequential stages.
    Pure helpers ([determine_platform], [gather_packages],
    [build_miniforge_filename]) are embedded as functions on strings; the
    stages that touch the host (file-existence checks, [shutil.which],
    [subprocess.run], [urllib.request.urlopen], temporary directories) are
    embedded in a state-and-exception monad over an explicit host state that
    also records the trace of performed actions.

    Strings are [string]s of 8-bit characters read as the code points
    0..255; [lower] is Python's [str.lower] on that range. *)

From Stdlib Require Import String Ascii List Bool Arith ZArith Lia.
From Stdlib Require Import DecimalString.
Import ListNotations.
Open Scope string_scope.

(** ** Strings *)

Module Str.

(** [str.lower] on code points below 256: A-Z and the Latin-1 capitals
    (0xC0..0xDE except the multiplication sign 0xD7) move up by 32. *)
Definition is_upper (c : ascii) : bool :=
  let n := nat_of_ascii c in
  ((65 <=? n)%nat && (n <=? 90)%nat)
  || ((192 <=? n)%nat && (n <=? 222)%nat && negb (n =? 215)%nat).

Definition lower_char (c : ascii) : ascii :=
  if is_upper c then ascii_of_nat (nat_of_ascii c + 32) else c.

Fixpoint lower (s : string) : string :=
  match s with
  | EmptyString => EmptyString
  | String c s' => String (lower_char c) (lower s')
  end.

(** [needle in s] for strings: some suffix of [s] starts with [needle]. *)
Fixpoint contains (needle s : string) : bool :=
  String.prefix needle s ||
  match s with
  | EmptyString => false
  | String _ s' => contains needle s'
  end.

(** [sep.join(parts)] *)
Fixpoint join (sep : string) (parts : list string) : string :=
  match parts with
  | [] => EmptyString
  | [p] => p
  | p :: rest => p ++ sep ++ join sep rest
  end.

(** [x in xs] for a list of strings. *)
Definition mem (x : string) (xs : list string) : bool :=
  existsb (String.eqb x) xs.

(** Truthiness of a string: non-empty. *)
Definition truthy (s : string) : bool :=
  match s with EmptyString => false | _ => true end.

(** [str(n)] for an integer. *)
Definition of_Z (n : Z) : string := NilZero.string_of_int (Z.to_int n).

End Str.

Arguments Str.mem _ _ : simpl never.
Arguments Str.truthy _ : simpl nomatch.

(** ** Package lists *)

Definition BASE_LIBRARIES : list string :=
  [ "requests"; "urllib3"; "python-dotenv"; "pydantic"; "pandas"; "numpy";
    "pyyaml"; "schedule"; "rich"; "loguru"; "click"; "boto3"; "paramiko";
    "beautifulsoup4"; "lxml"; "selenium"; "openpyxl"; "psutil" ].

Definition WINDOWS_ONLY : list string := [ "pywin32" ].
Definition UNIX_ONLY : list string := [].

(** The loop body of [gather_packages]:
    [if pkg and pkg not in packages: packages.append(pkg)]. *)
Definition add_extra (packages : list string) (pkg : string) : list string :=
  if Str.truthy pkg && negb (Str.mem pkg packages)
  then packages ++ [pkg]
  else packages.

Definition platform_packages (current_platform : string) : list string :=
  BASE_LIBRARIES ++
  (if String.eqb current_platform "windows" then WINDOWS_ONLY else UNIX_ONLY).

Definition gather_packages (current_platform : string) (extras : list string)
  : list string :=
  fold_left add_extra extras (platform_packages current_platform).

(** ** Exceptions *)

Inductive exn : Type :=
| RuntimeError (msg : string)
| FileNotFoundError (msg : string)
| OSError (msg : string).

Definition exn_message (e : exn) : string :=
  match e with
  | RuntimeError m | FileNotFoundError m | OSError m => m
  end.

(** ** Installer file name *)

Definition x86_names : list string := [ "x86_64"; "amd64" ].
Definition arm_names : list string := [ "arm64"; "aarch64" ].

Definition unsupported_architecture (machine current_platform : string) : exn :=
  RuntimeError ("Unsupported architecture '" ++ machine ++
                "' for platform '" ++ current_platform ++ "'.").

Definition build_miniforge_filename (current_platform machine : string)
  : exn + string :=
  let arch := Str.lower machine in
  let unsupported := inl (unsupported_architecture machine current_platform) in
  if String.eqb current_platform "windows" then
    if Str.mem arch x86_names then inr "Miniforge3-Windows-x86_64.exe"
    else if Str.mem arch arm_names then inr "Miniforge3-Windows-arm64.exe"
    else unsupported
  else if String.eqb current_platform "mac" then
    if Str.mem arch x86_names then inr "Miniforge3-MacOSX-x86_64.sh"
    else if Str.mem arch arm_names then inr "Miniforge3-MacOSX-arm64.sh"
    else unsupported
  else
    if Str.mem arch x86_names then inr "Miniforge3-Linux-x86_64.sh"
    else if Str.mem arch arm_names then inr "Miniforge3-Linux-aarch64.sh"
    else unsupported.

(** ** The host

    Everything the script reads from or does to the machine.  [files] is the
    set of path strings for which [Path.exists()] holds; [trace] records every
    action in program order.  A [Path] is modelled by the string it prints
    as.  An existence check is modelled where it answers: statements about a
    run fix the answer of each check they depend on by a hypothesis on
    [files].  Expanding and resolving a path can fail ([expanduser_error]),
    and that failure is raised as the code raises it. *)

Inductive event : Type :=
| EvPrint (line : string)                (* print(...) *)
| EvExists (path : string)               (* Path.exists() *)
| EvWhich (name : string)                (* shutil.which(name) *)
| EvSubprocess (command : list string)   (* subprocess.run(command) *)
| EvUrlopen (url : string)               (* urllib.request.urlopen(url) *)
| EvWriteFile (path : string)            (* open(path, "wb") and the copy *)
| EvMkdir (path : string)                (* Path.mkdir(parents=True, ...) *)
| EvChmod (path : string)                (* Path.chmod *)
| EvMkdtemp (path : string)              (* TemporaryDirectory.__enter__ *)
| EvRmtree (path : string).              (* TemporaryDirectory.__exit__ *)

Record State : Type := mkState {
  files : list string;
  trace : list event
}.

(** Outcome of [subprocess.run(..., check=False)]: the child ran and exited
    with a return code, or it could not be started and [OSError] is raised. *)
Inductive completed : Type :=
| Exited (returncode : Z)
| NotStarted (msg : string).

Record Host : Type := mkHost {
  platform_system : string;                      (* platform.system() *)
  platform_machine : string;                     (* platform.machine() *)
  os_name : string;                              (* os.name *)
  sys_executable : option string;                (* sys.executable *)
  path_join : string -> string -> string;        (* Path / str *)
  path_parent : string -> string;                (* Path.parent *)
  path_resolve : string -> string;               (* expanduser().resolve() *)
  expanduser_error : string -> option string;    (* Some msg: RuntimeError *)
  shutil_which : list string -> string -> option string;
  subprocess_run : list string -> list string -> completed * list string;
  urlopen : string -> list string -> option string;  (* Some msg: OSError *)
  mkdtemp : string -> list string -> string;     (* fresh directory name *)
  rmtree : string -> list string -> list string
}.

(** ** State-and-exception monad *)

Definition M (A : Type) : Type := State -> (exn + A) * State.

Definition ret {A : Type} (a : A) : M A := fun s => (inr a, s).

Definition raise {A : Type} (e : exn) : M A := fun s => (inl e, s).

Definition bind {A B : Type} (m : M A) (k : A -> M B) : M B :=
  fun s =>
    match m s with
    | (inl e, s') => (inl e, s')
    | (inr a, s') => k a s'
    end.

Declare Scope monad_scope.
Delimit Scope monad_scope with monad.
Notation "x <- m ;; k" := (bind m (fun x => k))
  (at level 61, m at next level, right associativity) : monad_scope.
Notation "m ;; k" := (bind m (fun _ => k))
  (at level 61, right associativity) : monad_scope.
Open Scope monad_scope.

Definition lift {A : Type} (r : exn + A) : M A :=
  match r with inl e => raise e | inr a => ret a end.

Definition emit (e : event) : M unit :=
  fun s => (inr tt, mkState (files s) (trace s ++ [e])).

Definition get_files : M (list string) := fun s => (inr (files s), s).

Definition set_files (fs : list string) : M unit :=
  fun s => (inr tt, mkState fs (trace s)).

Definition print (line : string) : M unit := emit (EvPrint line).

Definition exists_ (path : string) : M bool :=
  emit (EvExists path) ;;
  fs <- get_files ;;
  ret (Str.mem path fs).

Definition nl : string := String (ascii_of_nat 10) EmptyString.

Definition MINIFORGE_BASE_URL : string :=
  "https://github.com/conda-forge/miniforge/releases/latest/download".

(** Command-line arguments as [parse_args] returns them. *)
Record Namespace : Type := mkArgs {
  arg_env_dir : string;
  arg_runtime_dir : string;
  arg_python_bin : option string;
  arg_dry_run : bool;
  arg_extra : list string
}.

(** Truthiness of an [Optional[str]]. *)
Definition truthy_opt (o : option string) : bool :=
  match o with Some s => Str.truthy s | None => false end.

(** ** The pipeline *)

Section Pipeline.

Variable host : Host.

Definition command_failed (returncode : Z) (cmd_str : string) : exn :=
  RuntimeError ("Command failed (" ++ Str.of_Z returncode ++ "): " ++ cmd_str).

Definition run_command (command : list string) (dry_run : bool) : M unit :=
  let cmd_str := Str.join " " command in
  print (nl ++ "$ " ++ cmd_str) ;;
  if dry_run then ret tt
  else
    emit (EvSubprocess command) ;;
    fs <- get_files ;;
    let (result, fs') := subprocess_run host command fs in
    set_files fs' ;;
    match result with
    | NotStarted msg => raise (OSError msg)
    | Exited returncode =>
        if negb (returncode =? 0)%Z
        then raise (command_failed returncode cmd_str)
        else ret tt
    end.

Definition determine_platform : string :=
  let system_name := Str.lower (platform_system host) in
  if Str.contains "windows" system_name then "windows"
  else if Str.contains "darwin" system_name then "mac"
  else "linux".

Definition which (name : string) : M (option string) :=
  emit (EvWhich name) ;;
  fs <- get_files ;;
  ret (shutil_which host fs name).

(** The [for candidate in candidates] loop of [detect_existing_python]. *)
Fixpoint probe (candidates : list (option string)) : M (option string) :=
  match candidates with
  | [] => ret None
  | candidate :: rest =>
      if negb (truthy_opt candidate) then probe rest
      else
        let candidate_path :=
          match candidate with Some c => c | None => EmptyString end in
        found <- exists_ candidate_path ;;
        if found then ret (Some candidate_path)
        else
          resolved <- which candidate_path ;;
          if truthy_opt resolved then ret resolved
          else probe rest
  end.

Definition detect_existing_python (explicit : option string)
  : M (option string) :=
  probe [explicit; sys_executable host; Some "python3"; Some "python"; Some "py"].

Definition download_file (url destination : string) (dry_run : bool) : M unit :=
  print ("Downloading " ++ url ++ " -> " ++ destination) ;;
  if dry_run then ret tt
  else
    let parent := path_parent host destination in
    emit (EvMkdir parent) ;;
    fs0 <- get_files ;;
    (if Str.mem parent fs0 then ret tt else set_files (fs0 ++ [parent])) ;;
    emit (EvUrlopen url) ;;
    fs <- get_files ;;
    match urlopen host url fs with
    | Some msg => raise (OSError msg)
    | None =>
        emit (EvWriteFile destination) ;;
        set_files (fs ++ [destination])
    end.

(** [with tempfile.TemporaryDirectory(prefix=...) as tmpdir: body]: the
    directory is created on entry and removed on every exit. *)
Definition with_tempdir {A : Type} (prefix : string) (body : string -> M A)
  : M A :=
  fun s =>
    let tmpdir := mkdtemp host prefix (files s) in
    let s1 := mkState (files s ++ [tmpdir]) (trace s ++ [EvMkdtemp tmpdir]) in
    let (r, s2) := body tmpdir s1 in
    (r, mkState (rmtree host tmpdir (files s2)) (trace s2 ++ [EvRmtree tmpdir])).

Definition install_miniforge (runtime_dir current_platform : string)
  (dry_run : bool) : M unit :=
  filename <- lift (build_miniforge_filename current_platform
                      (platform_machine host)) ;;
  let url := MINIFORGE_BASE_URL ++ "/" ++ filename in
  with_tempdir "python-bootstrap-" (fun tmpdir =>
    let installer_path := path_join host tmpdir filename in
    download_file url installer_path dry_run ;;
    if dry_run then ret tt
    else if String.eqb current_platform "windows" then
      let target := runtime_dir in
      run_command [ installer_path; "/InstallationType=JustMe"; "/AddToPath=0";
                    "/S"; "/D=" ++ target ] false
    else
      emit (EvChmod installer_path) ;;
      run_command [ "bash"; installer_path; "-b"; "-p"; runtime_dir ] false).

(** [Path(p).expanduser().resolve()]: raises [RuntimeError] when the home
    directory of a [~] or [~user] prefix cannot be determined. *)
Definition resolve (p : string) : M string :=
  match expanduser_error host p with
  | Some msg => raise (RuntimeError msg)
  | None => ret (path_resolve host p)
  end.

Definition ensure_python_runtime (explicit_python : option string)
  (runtime_dir current_platform : string) (dry_run : bool) : M string :=
  if truthy_opt explicit_python then
    path <- resolve
              (match explicit_python with Some p => p | None => EmptyString end) ;;
    found <- (if dry_run then ret true else exists_ path) ;;
    if found then
      print ("Using user-specified python interpreter: " ++ path) ;;
      ret path
    else
      raise (FileNotFoundError
               ("Specified python interpreter not found: " ++ path))
  else
    existing <- detect_existing_python None ;;
    match existing with
    | Some p =>
        print ("Detected existing python interpreter: " ++ p) ;;
        ret p
    | None =>
        let runtime_python :=
          path_join host runtime_dir
            (if String.eqb current_platform "windows"
             then "python.exe" else "bin/python") in
        reuse <- exists_ runtime_python ;;
        if reuse then
          print ("Reusing portable runtime at " ++ runtime_python) ;;
          ret runtime_python
        else
          print ("No python detected. Installing portable runtime into "
                 ++ runtime_dir ++ "...") ;;
          install_miniforge runtime_dir current_platform dry_run ;;
          ret runtime_python
    end.

Definition ensure_venv (env_dir python_bin : string) (dry_run : bool)
  : M string :=
  present <- exists_ env_dir ;;
  (if negb present then
     print ("Creating virtual environment at " ++ env_dir ++ "...") ;;
     run_command [ python_bin; "-m"; "venv"; env_dir ] dry_run
   else
     print ("Using existing virtual environment at " ++ env_dir ++ ".")) ;;
  let scripts_dir := if String.eqb (os_name host) "nt" then "Scripts" else "bin" in
  let env_python :=
    path_join host (path_join host env_dir scripts_dir)
      (if String.eqb (os_name host) "nt" then "python.exe" else "python") in
  missing <- (if negb dry_run then
                found <- exists_ env_python ;; ret (negb found)
              else ret false) ;;
  if missing then
    raise (FileNotFoundError
             ("Cannot locate interpreter inside venv: " ++ env_python))
  else ret env_python.

Definition upgrade_tooling (env_python : string) (dry_run : bool) : M unit :=
  print "Upgrading pip, setuptools, and wheel..." ;;
  run_command [ env_python; "-m"; "pip"; "install"; "--upgrade";
                "pip"; "setuptools"; "wheel" ] dry_run.

Definition install_packages (env_python : string) (packages : list string)
  (dry_run : bool) : M unit :=
  match packages with
  | [] => print "No packages requested."
  | _ =>
      print ("Installing " ++ Str.of_Z (Z.of_nat (length packages))
             ++ " packages...") ;;
      run_command ([ env_python; "-m"; "pip"; "install"; "--upgrade" ]
                     ++ packages)%list dry_run
  end.

Definition main (args : Namespace) : M unit :=
  env_dir <- resolve (arg_env_dir args) ;;
  runtime_dir <- resolve (arg_runtime_dir args) ;;
  let current_platform := determine_platform in
  python_bin <- ensure_python_runtime (arg_python_bin args) runtime_dir
                  current_platform (arg_dry_run args) ;;
  env_python <- ensure_venv env_dir python_bin (arg_dry_run args) ;;
  upgrade_tooling env_python (arg_dry_run args) ;;
  let packages := gather_packages current_platform (arg_extra args) in
  install_packages env_python packages (arg_dry_run args) ;;
  print (nl ++ "Environment ready!") ;;
  let activation_hint :=
    if String.eqb current_platform "windows"
    then env_dir ++ "\Scripts\activate"
    else "source " ++ env_dir ++ "/bin/activate" in
  print "Activate it with:" ;;
  print ("  " ++ activation_hint).

End Pipeline.

(** ** Specification-side notions *)

(** Keep the first occurrence of every entry, in order. *)
Definition first_seen (l : list string) : list string :=
  rev (nodup string_dec (rev l)).

(** An extra is kept when it is non-empty and not already in [seen]. *)
Definition fresh_extra (seen : list string) (pkg : string) : bool :=
  Str.truthy pkg && negb (Str.mem pkg seen).

(** [pat] occurs in [s] up to letter case. *)
Definition occurs_ignoring_case (pat s : string) : Prop :=
  exists pre mid post,
    s = pre ++ mid ++ post /\ Str.lower mid = Str.lower pat.

(** What one candidate of [detect_existing_python] yields on the files
    [fs]: the candidate itself when it exists as a path, otherwise whatever
    the search path resolves it to. *)
Definition candidate_match (h : Host) (fs : list string)
  (candidate : option string) : option string :=
  match candidate with
  | Some c =>
      if Str.truthy c then
        if Str.mem c fs then Some c
        else match shutil_which h fs c with
             | Some r => if Str.truthy r then Some r else None
             | None => None
             end
      else None
  | None => None
  end.

(** The first candidate that yields something, in list order. *)
Fixpoint first_match (h : Host) (fs : list string)
  (candidates : list (option string)) : option string :=
  match candidates with
  | [] => None
  | c :: rest =>
      match candidate_match h fs c with
      | Some p => Some p
      | None => first_match h fs rest
      end
  end.

(** The checks that probing performs, in order. *)
Fixpoint probe_trace (h : Host) (fs : list string)
  (candidates : list (option string)) : list event :=
  match candidates with
  | [] => []
  | c :: rest =>
      if negb (truthy_opt c) then probe_trace h fs rest
      else
        let name := match c with Some n => n | None => EmptyString end in
        if Str.mem name fs then [EvExists name]
        else
          (EvExists name :: EvWhich name ::
           match candidate_match h fs c with
           | Some _ => []
           | None => probe_trace h fs rest
           end)
  end.

(** The candidates probed when no interpreter is given. *)
Definition auto_candidates (h : Host) : list (option string) :=
  [sys_executable h; Some "python3"; Some "python"; Some "py"].

(** Where a portable runtime keeps its interpreter. *)
Definition runtime_python (h : Host) (runtime_dir current_platform : string)
  : string :=
  path_join h runtime_dir
    (if String.eqb current_platform "windows" then "python.exe" else "bin/python").

(** Where an environment keeps its interpreter. *)
Definition env_python (h : Host) (env_dir : string) : string :=
  path_join h
    (path_join h env_dir (if String.eqb (os_name h) "nt" then "Scripts" else "bin"))
    (if String.eqb (os_name h) "nt" then "python.exe" else "python").

(** The first statement of [ensure_venv]: create the environment unless its
    directory exists. *)
Definition venv_creation (h : Host) (env_dir python_bin : string)
  (dry_run : bool) : M unit :=
  present <- exists_ env_dir ;;
  if negb present then
    print ("Creating virtual environment at " ++ env_dir ++ "...") ;;
    run_command h [ python_bin; "-m"; "venv"; env_dir ] dry_run
  else
    print ("Using existing virtual environment at " ++ env_dir ++ ".").

Definition cannot_locate (path : string) : exn :=
  FileNotFoundError ("Cannot locate interpreter inside venv: " ++ path).

(** Actions that only read the machine or write to the terminal. *)
Definition read_only (e : event) : bool :=
  match e with
  | EvPrint _ | EvExists _ | EvWhich _ => true
  | _ => false
  end.

(** Actions that a dry run may perform: reading, printing, and the scoped
    temporary directory of the installer stage. *)
Definition dry_run_event (e : event) : bool :=
  match e with
  | EvPrint _ | EvExists _ | EvWhich _ | EvMkdtemp _ | EvRmtree _ => true
  | _ => false
  end.

(** What a dry run does once the interpreter [py] is resolved, on the files
    [fs]. *)
Definition plan_events (h : Host) (args : Namespace) (py : string)
  (fs : list string) : list event :=
  let env_dir := path_resolve h (arg_env_dir args) in
  let ep := env_python h env_dir in
  let packages := gather_packages (determine_platform h) (arg_extra args) in
  (EvExists env_dir ::
   (if Str.mem env_dir fs then
      [EvPrint ("Using existing virtual environment at " ++ env_dir ++ ".")]
    else
      [EvPrint ("Creating virtual environment at " ++ env_dir ++ "...");
       EvPrint (nl ++ "$ " ++ Str.join " " [py; "-m"; "venv"; env_dir])])
   ++
   [EvPrint "Upgrading pip, setuptools, and wheel...";
    EvPrint (nl ++ "$ " ++
             Str.join " " [ep; "-m"; "pip"; "install"; "--upgrade";
                           "pip"; "setuptools"; "wheel"]);
    EvPrint ("Installing " ++ Str.of_Z (Z.of_nat (length packages))
             ++ " packages...");
    EvPrint (nl ++ "$ " ++
             Str.join " "
               ([ep; "-m"; "pip"; "install"; "--upgrade"] ++ packages)%list);
    EvPrint (nl ++ "Environment ready!");
    EvPrint "Activate it with:";
    EvPrint ("  " ++
             (if String.eqb (determine_platform h) "windows"
              then env_dir ++ "\Scripts\activate"
              else "source " ++ env_dir ++ "/bin/activate"))])%list.

(** What a dry run prints after the environment stage. *)
Definition plan_tail (h : Host) (args : Namespace) : list event :=
  let env_dir := path_resolve h (arg_env_dir args) in
  let ep := env_python h env_dir in
  let packages := gather_packages (determine_platform h) (arg_extra args) in
  [EvPrint "Upgrading pip, setuptools, and wheel...";
   EvPrint (nl ++ "$ " ++
            Str.join " " [ep; "-m"; "pip"; "install"; "--upgrade";
                          "pip"; "setuptools"; "wheel"]);
   EvPrint ("Installing " ++ Str.of_Z (Z.of_nat (length packages))
            ++ " packages...");
   EvPrint (nl ++ "$ " ++
            Str.join " "
              ([ep; "-m"; "pip"; "install"; "--upgrade"] ++ packages)%list);
   EvPrint (nl ++ "Environment ready!");
   EvPrint "Activate it with:";
   EvPrint ("  " ++
            (if String.eqb (determine_platform h) "windows"
             then env_dir ++ "\Scripts\activate"
             else "source " ++ env_dir ++ "/bin/activate"))].

(** C4 read to the letter: the running interpreter, then the generic names
    as the search path resolves them. *)
Definition search_path_probe (h : Host) (fs : list string) : option string :=
  match candidate_match h fs (sys_executable h) with
  | Some p => Some p
  | None =>
      match shutil_which h fs "python3" with
      | Some p => Some p
      | None =>
          match shutil_which h fs "python" with
          | Some p => Some p
          | None => shutil_which h fs "py"
          end
      end
  end.

(** The command line that runs the downloaded installer. *)
Definition installer_command (current_platform installer_path runtime_dir : string)
  : list string :=
  if String.eqb current_platform "windows" then
    [ installer_path; "/InstallationType=JustMe"; "/AddToPath=0"; "/S";
      "/D=" ++ runtime_dir ]
  else [ "bash"; installer_path; "-b"; "-p"; runtime_dir ].

(** The commands handed to [subprocess.run], in order. *)
Fixpoint commands_of (t : list event) : list (list string) :=
  match t with
  | [] => []
  | EvSubprocess command :: rest => command :: commands_of rest
  | _ :: rest => commands_of rest
  end.

(** The requests sent to the network, in order. *)
Fixpoint requests_of (t : list event) : list string :=
  match t with
  | [] => []
  | EvUrlopen url :: rest => url :: requests_of rest
  | _ :: rest => requests_of rest
  end.

Definition pip_upgrade_command (env_python : string) : list string :=
  [ env_python; "-m"; "pip"; "install"; "--upgrade";
    "pip"; "setuptools"; "wheel" ].

Definition pip_install_command (env_python : string) (packages : list string)
  : list string :=
  ([ env_python; "-m"; "pip"; "install"; "--upgrade" ] ++ packages)%list.

Definition activation_hint (h : Host) (env_dir : string) : string :=
  if String.eqb (determine_platform h) "windows"
  then env_dir ++ "\Scripts\activate"
  else "source " ++ env_dir ++ "/bin/activate".

(** ** Concrete hosts used to run the pipeline *)

Module Sample.

Definition posix_join (a b : string) : string := a ++ "/" ++ b.

(** Everything before the last slash, when there is one. *)
Fixpoint dirname (p : string) : option string :=
  match p with
  | EmptyString => None
  | String c rest =>
      match dirname rest with
      | Some d => Some (String c d)
      | None => if Ascii.eqb c "/" then Some EmptyString else None
      end
  end.

Definition posix_parent (p : string) : string :=
  match dirname p with Some d => d | None => "." end.

(** The files that a successful [python -m venv DIR] leaves behind, as far as
    the script looks at them. *)
Definition run_venv (command fs : list string) : completed * list string :=
  match command with
  | [_; "-m"; "venv"; dir] =>
      (Exited 0, (fs ++ [dir; posix_join (posix_join dir "bin") "python"])%list)
  | _ => (Exited 0, fs)
  end.

(** A machine on which paths are kept as given, nothing is on the search
    path unless listed in [on_path], every command succeeds and every
    download succeeds. *)
Definition machine_of (system os machine : string) (exe : option string)
  (on_path : list (string * string)) : Host :=
  mkHost system machine os exe
    posix_join
    posix_parent
    (fun p => p)
    (fun _ => None)
    (fun _ name =>
       match find (fun e => String.eqb (fst e) name) on_path with
       | Some e => Some (snd e)
       | None => None
       end)
    run_venv
    (fun _ _ => None)
    (fun prefix _ => "/tmp/" ++ prefix ++ "0")
    (fun d fs => filter (fun p => negb (String.prefix d p)) fs).

Definition linux : string -> option string -> list (string * string) -> Host :=
  machine_of "Linux" "posix".

(** A Linux machine on which every command exits with [rc] and changes
    nothing. *)
Definition inert (rc : Z) : Host :=
  mkHost "Linux" "x86_64" "posix" None posix_join
    posix_parent (fun p => p) (fun _ => None) (fun _ _ => None)
    (fun _ fs => (Exited rc, fs)) (fun _ _ => None)
    (fun prefix _ => "/tmp/" ++ prefix ++ "0") (fun _ fs => fs).

(** A Linux machine without network: every request fails. *)
Definition offline : Host :=
  mkHost "Linux" "x86_64" "posix" None posix_join
    posix_parent (fun p => p) (fun _ => None) (fun _ _ => None)
    run_venv (fun _ _ => Some "Network is unreachable")
    (fun prefix _ => "/tmp/" ++ prefix ++ "0")
    (fun d fs => filter (fun p => negb (String.prefix d p)) fs).

(** A machine on which the installer and [venv] do their work and every
    other command succeeds; [which] finds nothing. *)
Definition run_all (command fs : list string) : completed * list string :=
  match command with
  | ["bash"; _; "-b"; "-p"; dir] =>
      (Exited 0, (fs ++ [dir; posix_join dir "bin/python"])%list)
  | _ => run_venv command fs
  end.

Definition bare (machine : string) : Host :=
  mkHost "Linux" machine "posix" None posix_join
    posix_parent (fun p => p) (fun _ => None) (fun _ _ => None)
    run_all (fun _ _ => None)
    (fun prefix _ => "/tmp/" ++ prefix ++ "0")
    (fun d fs => filter (fun p => negb (String.prefix d p)) fs).


(** A Linux machine with an interpreter on the search path, on which the
    home directory of no [~user] can be determined. *)
Definition homeless : Host :=
  mkHost "Linux" "x86_64" "posix" (Some "/usr/bin/python3") posix_join
    posix_parent (fun p => p)
    (fun p => if String.prefix "~" p
              then Some "Could not determine home directory." else None)
    (fun _ _ => None) run_venv (fun _ _ => None)
    (fun prefix _ => "/tmp/" ++ prefix ++ "0")
    (fun d fs => filter (fun p => negb (String.prefix d p)) fs).

Definition args (python_bin : option string) (dry_run : bool) : Namespace :=
  mkArgs ".venv" "python-runtime" python_bin dry_run [].

Definition start (fs : list string) : State := mkState fs [].

End Sample.

(** * Properties *)

(** ** The embedding at work *)

Example of_Z_examples :
  Str.of_Z 0 = "0" /\ Str.of_Z 127 = "127" /\ Str.of_Z (-15) = "-15".
Proof. repeat split. Qed.

Example lower_examples :
  Str.lower "AMD64" = "amd64" /\ Str.lower "Windows" = "windows".
Proof. split; reflexivity. Qed.

Example join_example :
  Str.join " " ["python"; "-m"; "venv"; ".venv"] = "python -m venv .venv".
Proof. reflexivity. Qed.

Example gather_packages_example :
  gather_packages "linux" ["foo"; "requests"; "foo"]
  = (BASE_LIBRARIES ++ ["foo"])%list.
Proof. reflexivity. Qed.

(** ** Strings and lists of strings *)

Lemma mem_In (x : string) (l : list string) : Str.mem x l = true <-> In x l.
Proof.
  unfold Str.mem. rewrite existsb_exists. split.
  - intros [y [Hy Heq]]. apply String.eqb_eq in Heq. now subst.
  - intros H. exists x. split; [assumption | apply String.eqb_refl].
Qed.

Lemma mem_false (x : string) (l : list string) :
  Str.mem x l = false <-> ~ In x l.
Proof.
  rewrite <- mem_In. destruct (Str.mem x l); split; congruence.
Qed.

Lemma truthy_nonempty (s : string) : Str.truthy s = true <-> s <> EmptyString.
Proof. destruct s; simpl; split; congruence. Qed.

Lemma first_seen_snoc (l : list string) (x : string) :
  first_seen (l ++ [x]) =
  if Str.mem x l then first_seen l else (first_seen l ++ [x])%list.
Proof.
  unfold first_seen. rewrite rev_app_distr. simpl.
  destruct (in_dec string_dec x (rev l)) as [Hin | Hnin].
  - apply in_rev in Hin. apply mem_In in Hin. now rewrite Hin.
  - assert (Hm : Str.mem x l = false).
    { apply mem_false. intros H. apply Hnin. now apply in_rev in H. }
    now rewrite Hm.
Qed.

Lemma first_seen_In (l : list string) (x : string) :
  In x (first_seen l) <-> In x l.
Proof.
  unfold first_seen. rewrite <- in_rev, nodup_In, <- in_rev. reflexivity.
Qed.

Lemma first_seen_NoDup (l : list string) : NoDup (first_seen l).
Proof. unfold first_seen. apply NoDup_rev, NoDup_nodup. Qed.

(** ** gather_packages *)

Lemma gather_packages_snoc (p : string) (extras : list string) (x : string) :
  gather_packages p (extras ++ [x]) = add_extra (gather_packages p extras) x.
Proof. unfold gather_packages. now rewrite fold_left_app. Qed.

Lemma platform_packages_NoDup (p : string) : NoDup (platform_packages p).
Proof.
  unfold platform_packages.
  destruct (String.eqb p "windows");
    match goal with
    | |- NoDup ?l =>
        replace l with (nodup string_dec l) by (vm_compute; reflexivity)
    end; apply NoDup_nodup.
Qed.

Lemma platform_packages_nonempty (p : string) :
  ~ In EmptyString (platform_packages p).
Proof.
  apply mem_false. unfold platform_packages.
  destruct (String.eqb p "windows"); vm_compute; reflexivity.
Qed.

(** The loop computes the start list followed by the fresh extras, first
    occurrences only. *)
Lemma fold_add_extra_shape (pre extras : list string) :
  fold_left add_extra extras pre =
  (pre ++ first_seen (filter (fresh_extra pre) extras))%list.
Proof.
  induction extras as [| x extras IH] using rev_ind.
  - cbn. now rewrite app_nil_r.
  - rewrite fold_left_app, IH, filter_app. cbn [fold_left filter].
    set (kept := filter (fresh_extra pre) extras).
    unfold add_extra, fresh_extra.
    destruct (Str.truthy x) eqn:Ht; cbn [andb].
    + destruct (Str.mem x pre) eqn:Hpre; cbn [negb].
      * rewrite app_nil_r.
        assert (Hm : Str.mem x (pre ++ first_seen kept) = true).
        { apply mem_In, in_or_app. left. now apply mem_In. }
        now rewrite Hm.
      * rewrite first_seen_snoc.
        destruct (Str.mem x kept) eqn:Hk.
        -- assert (Hm : Str.mem x (pre ++ first_seen kept) = true).
           { apply mem_In, in_or_app. right.
             apply first_seen_In. now apply mem_In. }
           now rewrite Hm.
        -- assert (Hm : Str.mem x (pre ++ first_seen kept) = false).
           { apply mem_false. intros H. apply in_app_or in H.
             destruct H as [H | H].
             - apply (proj2 (mem_In _ _)) in H. congruence.
             - apply (proj1 (first_seen_In _ _)) in H.
               apply (proj2 (mem_In _ _)) in H. congruence. }
           rewrite Hm. cbn [negb]. now rewrite app_assoc.
    + now rewrite app_nil_r.
Qed.

Lemma gather_packages_shape (p : string) (extras : list string) :
  gather_packages p extras =
  (platform_packages p
     ++ first_seen (filter (fresh_extra (platform_packages p)) extras))%list.
Proof. apply fold_add_extra_shape. Qed.

Lemma gather_packages_In (p : string) (extras : list string) (x : string) :
  In x (gather_packages p extras) <->
  In x (platform_packages p) \/ (In x extras /\ x <> EmptyString).
Proof.
  rewrite gather_packages_shape, in_app_iff, first_seen_In, filter_In.
  unfold fresh_extra. rewrite andb_true_iff, negb_true_iff.
  rewrite truthy_nonempty, mem_false.
  destruct (in_dec string_dec x (platform_packages p)); tauto.
Qed.

Lemma gather_packages_NoDup (p : string) (extras : list string) :
  NoDup (gather_packages p extras).
Proof.
  rewrite gather_packages_shape.
  apply NoDup_app.
  - apply platform_packages_NoDup.
  - apply first_seen_NoDup.
  - intros x Hpre Hk. apply first_seen_In, filter_In in Hk.
    destruct Hk as [_ Hk]. unfold fresh_extra in Hk.
    apply andb_true_iff in Hk. destruct Hk as [_ Hk].
    apply negb_true_iff, mem_false in Hk. contradiction.
Qed.

Lemma gather_packages_once (p : string) (extras : list string) (x : string) :
  In x (gather_packages p extras) ->
  count_occ string_dec (gather_packages p extras) x = 1.
Proof.
  intros H. now apply (proj1 (NoDup_count_occ' string_dec _)
                         (gather_packages_NoDup p extras)).
Qed.

Lemma base_in_platform_packages (p b : string) :
  In b BASE_LIBRARIES -> In b (platform_packages p).
Proof. intros H. unfold platform_packages. apply in_or_app. now left. Qed.

Lemma pywin32_in_platform_packages (p : string) :
  In "pywin32" (platform_packages p) <-> p = "windows".
Proof.
  unfold platform_packages. destruct (String.eqb_spec p "windows") as [-> | Hp].
  - split; [reflexivity | intros _; apply mem_In; reflexivity].
  - split; [| contradiction].
    intros H. apply mem_In in H. vm_compute in H. discriminate.
Qed.

(** C1 (amended): the gathered list is the base list, then [pywin32] exactly
    when the platform is [windows], then the non-empty extras that are not in
    that prefix, each once and in first-seen order.  Every base library occurs
    exactly once; [pywin32] occurs exactly once on [windows] and, on any other
    platform, not at all unless it was passed as an extra; every non-empty
    extra occurs exactly once. *)
Theorem gather_packages_contents (p : string) (extras : list string) :
  gather_packages p extras =
    (platform_packages p
       ++ first_seen (filter (fresh_extra (platform_packages p)) extras))%list
  /\ (forall b, In b BASE_LIBRARIES ->
        count_occ string_dec (gather_packages p extras) b = 1)
  /\ (p = "windows" ->
        count_occ string_dec (gather_packages p extras) "pywin32" = 1)
  /\ (p <> "windows" -> ~ In "pywin32" extras ->
        count_occ string_dec (gather_packages p extras) "pywin32" = 0)
  /\ (forall x, In x extras -> x <> EmptyString ->
        count_occ string_dec (gather_packages p extras) x = 1).
Proof.
  split; [apply gather_packages_shape |].
  split; [| split; [| split]].
  - intros b Hb. apply gather_packages_once, gather_packages_In.
    left. now apply base_in_platform_packages.
  - intros Hp. apply gather_packages_once, gather_packages_In.
    left. now apply pywin32_in_platform_packages.
  - intros Hp Hx. apply count_occ_not_In. intros H.
    apply gather_packages_In in H. destruct H as [H | [H _]].
    + now apply pywin32_in_platform_packages in H.
    + contradiction.
  - intros x Hx Hne. apply gather_packages_once, gather_packages_In.
    right. now split.
Qed.

Lemma gather_packages_contents_witness :
  count_occ string_dec
    (gather_packages "windows" ["foo"; "requests"; "foo"]) "requests" = 1
  /\ count_occ string_dec
       (gather_packages "windows" ["foo"; "requests"; "foo"]) "pywin32" = 1
  /\ count_occ string_dec
       (gather_packages "linux" ["foo"; "requests"; "foo"]) "pywin32" = 0
  /\ count_occ string_dec
       (gather_packages "linux" ["foo"; "requests"; "foo"]) "foo" = 1.
Proof.
  destruct (gather_packages_contents "windows" ["foo"; "requests"; "foo"])
    as (_ & Hbase & Hwin & _ & _).
  destruct (gather_packages_contents "linux" ["foo"; "requests"; "foo"])
    as (_ & _ & _ & Hother & Hextra).
  split; [| split; [| split]].
  - apply Hbase. apply mem_In. reflexivity.
  - apply Hwin. reflexivity.
  - apply Hother.
    + discriminate.
    + intros H. apply mem_In in H. discriminate.
  - apply Hextra.
    + apply mem_In. reflexivity.
    + discriminate.
Defined.

(** C1 as stated fails: on [linux] an extra named [pywin32] puts [pywin32]
    in the list, and an empty extra is not in the list at all. *)
Lemma gather_packages_claim_fails :
  count_occ string_dec (gather_packages "linux" ["pywin32"]) "pywin32" = 1
  /\ count_occ string_dec (gather_packages "mac" [EmptyString]) EmptyString = 0.
Proof. split; reflexivity. Qed.

(** C10: the empty string is never in the gathered list. *)
Theorem gather_packages_drops_empty (p : string) (extras : list string) :
  ~ In EmptyString (gather_packages p extras).
Proof.
  intros H. apply gather_packages_In in H. destruct H as [H | [_ H]].
  - now apply platform_packages_nonempty in H.
  - now apply H.
Qed.

(** ** build_miniforge_filename *)

Lemma build_miniforge_filename_unsupported (p machine : string) :
  ~ In (Str.lower machine) x86_names ->
  ~ In (Str.lower machine) arm_names ->
  build_miniforge_filename p machine = inl (unsupported_architecture machine p).
Proof.
  intros Hx Ha. apply mem_false in Hx, Ha.
  unfold build_miniforge_filename. rewrite Hx, Ha.
  destruct (String.eqb p "windows"), (String.eqb p "mac"); reflexivity.
Qed.

Lemma x86_not_arm (arch : string) :
  In arch x86_names -> Str.mem arch arm_names = false.
Proof.
  intros [<- | [<- | []]]; reflexivity.
Qed.

(** C2: the six supported (platform, architecture) combinations give the
    documented installer names; any other architecture, on any platform, gives
    the unsupported-architecture error, and [install_miniforge] then raises it
    with the host state untouched: nothing was printed, created or
    downloaded. *)
Theorem build_miniforge_filename_table (machine : string) :
  (In (Str.lower machine) x86_names ->
     build_miniforge_filename "windows" machine
       = inr "Miniforge3-Windows-x86_64.exe"
     /\ build_miniforge_filename "mac" machine
          = inr "Miniforge3-MacOSX-x86_64.sh"
     /\ build_miniforge_filename "linux" machine
          = inr "Miniforge3-Linux-x86_64.sh")
  /\ (In (Str.lower machine) arm_names ->
        build_miniforge_filename "windows" machine
          = inr "Miniforge3-Windows-arm64.exe"
        /\ build_miniforge_filename "mac" machine
             = inr "Miniforge3-MacOSX-arm64.sh"
        /\ build_miniforge_filename "linux" machine
             = inr "Miniforge3-Linux-aarch64.sh")
  /\ (~ In (Str.lower machine) x86_names ->
      ~ In (Str.lower machine) arm_names ->
      forall p : string,
        build_miniforge_filename p machine
          = inl (unsupported_architecture machine p)
        /\ forall (h : Host) (runtime_dir : string) (dry_run : bool) (s : State),
             platform_machine h = machine ->
             install_miniforge h runtime_dir p dry_run s
               = (inl (unsupported_architecture machine p), s)).
Proof.
  split; [| split].
  - intros H. apply mem_In in H.
    unfold build_miniforge_filename. rewrite H. cbn. repeat split.
  - intros H. apply mem_In in H.
    unfold build_miniforge_filename. rewrite H.
    destruct (Str.mem (Str.lower machine) x86_names) eqn:Hx.
    + apply mem_In, x86_not_arm in Hx. congruence.
    + cbn. repeat split.
  - intros Hx Ha p.
    pose proof (build_miniforge_filename_unsupported p machine Hx Ha) as Hb.
    split; [exact Hb |].
    intros h runtime_dir dry_run s Hm.
    unfold install_miniforge, bind. rewrite Hm, Hb. reflexivity.
Qed.

Lemma build_miniforge_filename_table_witness :
  build_miniforge_filename "mac" "AMD64" = inr "Miniforge3-MacOSX-x86_64.sh"
  /\ build_miniforge_filename "linux" "AArch64"
       = inr "Miniforge3-Linux-aarch64.sh"
  /\ install_miniforge (Sample.linux "riscv64" None []) "python-runtime"
       "linux" false (Sample.start [])
     = (inl (RuntimeError
               "Unsupported architecture 'riscv64' for platform 'linux'."),
        Sample.start []).
Proof.
  split; [| split].
  - apply (build_miniforge_filename_table "AMD64").
    apply mem_In. reflexivity.
  - apply (build_miniforge_filename_table "AArch64").
    apply mem_In. reflexivity.
  - apply (build_miniforge_filename_table "riscv64").
    + intros H. apply mem_In in H. discriminate.
    + intros H. apply mem_In in H. discriminate.
    + reflexivity.
Defined.

(** ** determine_platform *)

Lemma prefix_app (a s : string) :
  String.prefix a s = true <-> exists post, s = a ++ post.
Proof.
  revert s. induction a as [| c a IH]; intros s.
  - split; [intros _; exists s; reflexivity | intros _; destruct s; reflexivity].
  - destruct s as [| d s]; cbn.
    + split; [discriminate | intros [post H]; discriminate].
    + destruct (Ascii.ascii_dec c d) as [-> | Hcd].
      * rewrite IH. split; intros [post H]; exists post.
        -- now rewrite H.
        -- now injection H.
      * split; [discriminate | intros [post H]; injection H; intros; congruence].
Qed.

Lemma contains_app (pat s : string) :
  Str.contains pat s = true <-> exists pre post, s = pre ++ pat ++ post.
Proof.
  induction s as [| c s IH]; cbn [Str.contains]; rewrite orb_true_iff.
  - split.
    + intros [H | H]; [| discriminate].
      apply prefix_app in H. destruct H as [post H]. now exists EmptyString, post.
    + intros [pre [post H]]. left. apply prefix_app.
      destruct pre; [now exists post | discriminate].
  - rewrite IH, prefix_app. split.
    + intros [[post H] | [pre [post H]]].
      * now exists EmptyString, post.
      * exists (String c pre), post. cbn. now rewrite H.
    + intros [pre [post H]]. destruct pre as [| d pre].
      * left. now exists post.
      * right. exists pre, post. cbn in H. now injection H.
Qed.

Lemma lower_app (a b : string) : Str.lower (a ++ b) = Str.lower a ++ Str.lower b.
Proof. induction a as [| c a IH]; cbn; [reflexivity | now rewrite IH]. Qed.

Lemma lower_split (s a b : string) :
  Str.lower s = a ++ b ->
  exists a' b', s = a' ++ b' /\ Str.lower a' = a /\ Str.lower b' = b.
Proof.
  revert s. induction a as [| c a IH]; intros s H.
  - now exists EmptyString, s.
  - destruct s as [| d s]; [discriminate |].
    cbn in H. injection H as Hc Hs.
    destruct (IH s Hs) as (a' & b' & -> & Ha & Hb).
    exists (String d a'), b'. cbn. now rewrite Hc, Ha.
Qed.

(** The test [pat in s.lower()] is an occurrence of [pat] in [s] up to case,
    for a pattern that is already in lower case. *)
Lemma contains_lower (pat s : string) :
  Str.lower pat = pat ->
  Str.contains pat (Str.lower s) = true <-> occurs_ignoring_case pat s.
Proof.
  intros Hpat. rewrite contains_app. unfold occurs_ignoring_case. split.
  - intros (pre & post & H).
    apply lower_split in H. destruct H as (pre' & rest & -> & _ & H).
    apply lower_split in H. destruct H as (mid & post' & -> & Hmid & _).
    exists pre', mid, post'. split; [reflexivity | congruence].
  - intros (pre & mid & post & -> & H).
    exists (Str.lower pre), (Str.lower post).
    rewrite !lower_app. congruence.
Qed.

(** C3: [windows] when the OS name contains [windows] in any letter case,
    else [mac] when it contains [darwin] in any letter case, else [linux];
    the result is always one of the three tags. *)
Theorem determine_platform_policy (h : Host) :
  (occurs_ignoring_case "windows" (platform_system h) ->
     determine_platform h = "windows")
  /\ (~ occurs_ignoring_case "windows" (platform_system h) ->
      occurs_ignoring_case "darwin" (platform_system h) ->
      determine_platform h = "mac")
  /\ (~ occurs_ignoring_case "windows" (platform_system h) ->
      ~ occurs_ignoring_case "darwin" (platform_system h) ->
      determine_platform h = "linux")
  /\ In (determine_platform h) ["windows"; "mac"; "linux"].
Proof.
  pose proof (contains_lower "windows" (platform_system h) eq_refl) as Hw.
  pose proof (contains_lower "darwin" (platform_system h) eq_refl) as Hd.
  unfold determine_platform.
  destruct (Str.contains "windows" (Str.lower (platform_system h)));
    destruct (Str.contains "darwin" (Str.lower (platform_system h)));
    cbn; intuition congruence.
Qed.

Lemma determine_platform_policy_witness :
  determine_platform (Sample.machine_of "Microsoft WINDOWS" "nt" "AMD64" None [])
    = "windows"
  /\ determine_platform (Sample.machine_of "Darwin" "posix" "arm64" None [])
       = "mac"
  /\ determine_platform (Sample.machine_of "FreeBSD" "posix" "amd64" None [])
       = "linux".
Proof.
  split; [| split].
  - apply determine_platform_policy.
    exists "Microsoft ", "WINDOWS", EmptyString. split; reflexivity.
  - apply determine_platform_policy.
    + intros H. apply (contains_lower "windows" "Darwin" eq_refl) in H.
      discriminate.
    + exists EmptyString, "Darwin", EmptyString. split; reflexivity.
  - apply determine_platform_policy.
    + intros H. apply (contains_lower "windows" "FreeBSD" eq_refl) in H.
      discriminate.
    + intros H. apply (contains_lower "darwin" "FreeBSD" eq_refl) in H.
      discriminate.
Defined.

(** ** run_command *)

Lemma run_command_dry (h : Host) (command : list string) (s : State) :
  run_command h command true s
  = (inr tt,
     mkState (files s)
       (trace s ++ [EvPrint (nl ++ "$ " ++ Str.join " " command)])).
Proof. reflexivity. Qed.

Lemma run_command_real (h : Host) (command : list string) (s : State) :
  run_command h command false s
  = (match fst (subprocess_run h command (files s)) with
     | NotStarted msg => inl (OSError msg)
     | Exited rc =>
         if (rc =? 0)%Z then inr tt
         else inl (command_failed rc (Str.join " " command))
     end,
     mkState (snd (subprocess_run h command (files s)))
       (trace s ++ [EvPrint (nl ++ "$ " ++ Str.join " " command);
                    EvSubprocess command])).
Proof.
  unfold run_command, bind, print, emit, get_files, set_files. cbn.
  destruct (subprocess_run h command (files s)) as [[rc | msg] fs']; cbn.
  - rewrite <- app_assoc. destruct (rc =? 0)%Z; reflexivity.
  - rewrite <- app_assoc. reflexivity.
Qed.

(** C7: outside dry-run mode, [run_command] raises the command-failure error
    exactly when the process exits with a non-zero code, the message is
    [Command failed (<code>): <command line>], and it returns normally exactly
    when the process exits with code zero; in dry-run mode it always returns
    normally. *)
Theorem run_command_failure (h : Host) (command : list string) (s : State) :
  (forall msg : string,
     fst (run_command h command false s) = inl (RuntimeError msg) <->
     exists rc : Z,
       fst (subprocess_run h command (files s)) = Exited rc
       /\ rc <> 0%Z
       /\ msg = "Command failed (" ++ Str.of_Z rc ++ "): "
                  ++ Str.join " " command)
  /\ (fst (run_command h command false s) = inr tt <->
      fst (subprocess_run h command (files s)) = Exited 0%Z)
  /\ fst (run_command h command true s) = inr tt.
Proof.
  rewrite <- and_assoc. split; [| reflexivity].
  rewrite run_command_real. cbn [fst].
  destruct (fst (subprocess_run h command (files s))) as [rc | m].
  - destruct (Z.eqb_spec rc 0) as [-> | Hrc]; split.
    + intros msg. split; [discriminate |].
      intros (rc & H & Hne & _). congruence.
    + split; reflexivity.
    + intros msg. unfold command_failed. split.
      * intros H. exists rc. repeat split; congruence.
      * intros (rc' & H & _ & ->). congruence.
    + split; [discriminate | congruence].
  - split.
    + intros msg. split; [discriminate |].
      intros (rc & H & _). discriminate.
    + split; discriminate.
Qed.

Lemma run_command_failure_witness :
  fst (run_command (Sample.inert 2) ["pip"; "install"; "nothing"] false
         (Sample.start []))
  = inl (RuntimeError "Command failed (2): pip install nothing").
Proof.
  apply run_command_failure.
  exists 2%Z. repeat split. discriminate.
Defined.

(** ** Interpreter resolution *)

Ltac run_monad :=
  unfold bind, ret, raise, lift, print, exists_, which, emit,
    get_files, set_files; cbn.

Lemma probe_spec (h : Host) (candidates : list (option string)) (s : State) :
  probe h candidates s
  = (inr (first_match h (files s) candidates),
     mkState (files s) (trace s ++ probe_trace h (files s) candidates)).
Proof.
  revert s. induction candidates as [| c rest IH]; intros s.
  - cbn. rewrite app_nil_r. now destruct s.
  - cbn [probe first_match probe_trace].
    destruct c as [c |]; cbn [truthy_opt negb candidate_match];
      [| apply IH].
    destruct (Str.truthy c) eqn:Ht; cbn [negb]; [| apply IH].
    run_monad. destruct (Str.mem c (files s)) eqn:Hm; [reflexivity |]. cbn.
    destruct (shutil_which h (files s) c) as [r |] eqn:Hw; cbn.
    + destruct (Str.truthy r) eqn:Hr; cbn.
      * now rewrite <- app_assoc.
      * rewrite IH. cbn. now rewrite <- !app_assoc.
    + rewrite IH. cbn. now rewrite <- !app_assoc.
Qed.

Lemma probe_trace_read_only (h : Host) (fs : list string)
  (candidates : list (option string)) :
  forallb read_only (probe_trace h fs candidates) = true.
Proof.
  induction candidates as [| c rest IH]; [reflexivity |].
  cbn [probe_trace]. destruct (negb (truthy_opt c)); [assumption |].
  destruct (Str.mem _ fs); [reflexivity |]. cbn.
  destruct (candidate_match h fs c); [reflexivity | assumption].
Qed.

(** The result of probing is the yield of the first candidate that yields
    anything: every candidate before it yields nothing. *)
Lemma first_match_priority (h : Host) (fs : list string)
  (candidates : list (option string)) (p : string) :
  first_match h fs candidates = Some p <->
  exists before c after,
    candidates = (before ++ c :: after)%list
    /\ Forall (fun c' => candidate_match h fs c' = None) before
    /\ candidate_match h fs c = Some p.
Proof.
  induction candidates as [| c rest IH]; cbn [first_match].
  - split; [discriminate |].
    intros (before & c & after & H & _). destruct before; discriminate.
  - destruct (candidate_match h fs c) as [q |] eqn:Hc.
    + split.
      * intros H. exists [], c, rest. repeat split; [constructor | congruence].
      * intros (before & c' & after & H & Hb & Hm).
        destruct before as [| b before]; cbn in H; injection H as -> ->.
        -- congruence.
        -- inversion Hb; congruence.
    + rewrite IH. split.
      * intros (before & c' & after & -> & Hb & Hm).
        exists (c :: before), c', after. repeat split; [now constructor | assumption].
      * intros (before & c' & after & H & Hb & Hm).
        destruct before as [| b before]; cbn in H; injection H as -> ->.
        -- congruence.
        -- exists before, c', after. inversion Hb. now repeat split.
Qed.

Lemma first_match_none (h : Host) (fs : list string)
  (candidates : list (option string)) :
  first_match h fs candidates = None <->
  Forall (fun c => candidate_match h fs c = None) candidates.
Proof.
  induction candidates as [| c rest IH]; cbn [first_match].
  - split; [constructor | reflexivity].
  - destruct (candidate_match h fs c) eqn:Hc.
    + split; [discriminate | intros H; inversion H; congruence].
    + rewrite IH. split; [now constructor | intros H; now inversion H].
Qed.

Lemma detect_existing_python_none (h : Host) (s : State) :
  detect_existing_python h None s
  = (inr (first_match h (files s) (auto_candidates h)),
     mkState (files s) (trace s ++ probe_trace h (files s) (auto_candidates h))).
Proof.
  unfold detect_existing_python. rewrite probe_spec. reflexivity.
Qed.

Lemma ensure_python_runtime_auto (h : Host) (explicit : option string)
  (runtime_dir current_platform : string) (dry_run : bool) (s : State) :
  truthy_opt explicit = false ->
  ensure_python_runtime h explicit runtime_dir current_platform dry_run s
  = let fs := files s in
    let probed := (trace s ++ probe_trace h fs (auto_candidates h))%list in
    let rp := runtime_python h runtime_dir current_platform in
    match first_match h fs (auto_candidates h) with
    | Some p =>
        (inr p,
         mkState fs
           (probed ++ [EvPrint ("Detected existing python interpreter: " ++ p)]))
    | None =>
        if Str.mem rp fs then
          (inr rp,
           mkState fs
             (probed ++ [EvExists rp;
                         EvPrint ("Reusing portable runtime at " ++ rp)]))
        else
          let s1 :=
            mkState fs
              (probed ++
               [EvExists rp;
                EvPrint ("No python detected. Installing portable runtime into "
                         ++ runtime_dir ++ "...")]) in
          (match fst (install_miniforge h runtime_dir current_platform dry_run s1)
           with
           | inl e => inl e
           | inr _ => inr rp
           end,
           snd (install_miniforge h runtime_dir current_platform dry_run s1))
    end.
Proof.
  intros He. unfold ensure_python_runtime. rewrite He.
  unfold bind at 1. rewrite detect_existing_python_none.
  fold (runtime_python h runtime_dir current_platform).
  destruct (first_match h (files s) (auto_candidates h)) as [p |]; cbn zeta.
  - reflexivity.
  - run_monad.
    destruct (Str.mem (runtime_python h runtime_dir current_platform) (files s));
      cbn.
    + now rewrite <- !app_assoc.
    + rewrite <- !app_assoc. cbn.
      destruct (install_miniforge h runtime_dir current_platform dry_run _)
        as [[e | []] s2]; reflexivity.
Qed.

(** C4 (amended): with no interpreter given, the candidates are tried in the
    order running interpreter, [python3], [python], [py]; each candidate is
    first tested as a path as it stands and only then resolved against the
    search path, and the first one that yields a path is returned after
    read-only checks alone.  Only when none yields anything is the runtime
    directory's interpreter path checked and returned when present; only when
    that is absent too is the portable runtime installed, and its interpreter
    path returned once the installation has gone through. *)
Theorem auto_python_resolution (h : Host) (explicit : option string)
  (runtime_dir current_platform : string) (dry_run : bool) (s : State) :
  truthy_opt explicit = false ->
  let run :=
    ensure_python_runtime h explicit runtime_dir current_platform dry_run s in
  let probed := (trace s ++ probe_trace h (files s) (auto_candidates h))%list in
  let rp := runtime_python h runtime_dir current_platform in
  (forall p : string,
     first_match h (files s) (auto_candidates h) = Some p <->
     exists before c after,
       auto_candidates h = (before ++ c :: after)%list
       /\ Forall (fun c' => candidate_match h (files s) c' = None) before
       /\ candidate_match h (files s) c = Some p)
  /\ forallb read_only (probe_trace h (files s) (auto_candidates h)) = true
  /\ (forall p : string,
        first_match h (files s) (auto_candidates h) = Some p ->
        run = (inr p,
               mkState (files s)
                 (probed ++
                  [EvPrint ("Detected existing python interpreter: " ++ p)])))
  /\ (first_match h (files s) (auto_candidates h) = None ->
      In rp (files s) ->
      run = (inr rp,
             mkState (files s)
               (probed ++ [EvExists rp;
                           EvPrint ("Reusing portable runtime at " ++ rp)])))
  /\ (first_match h (files s) (auto_candidates h) = None ->
      ~ In rp (files s) ->
      exists s1 : State,
        files s1 = files s
        /\ trace s1 =
             (probed ++
              [EvExists rp;
               EvPrint ("No python detected. Installing portable runtime into "
                        ++ runtime_dir ++ "...")])%list
        /\ snd run = snd (install_miniforge h runtime_dir current_platform
                            dry_run s1)
        /\ fst run =
             match fst (install_miniforge h runtime_dir current_platform
                          dry_run s1) with
             | inl e => inl e
             | inr _ => inr rp
             end).
Proof.
  intros He run probed rp. subst run.
  rewrite (ensure_python_runtime_auto h explicit _ _ _ _ He). cbn zeta.
  fold probed. fold rp.
  split; [intros p; apply first_match_priority |].
  split; [apply probe_trace_read_only |].
  split; [| split].
  - intros p Hp. now rewrite Hp.
  - intros Hnone Hrp. apply mem_In in Hrp. now rewrite Hnone, Hrp.
  - intros Hnone Hrp. apply mem_false in Hrp. rewrite Hnone, Hrp.
    eexists (mkState (files s) _). cbn [files trace fst snd].
    repeat split; reflexivity.
Qed.

Lemma auto_python_resolution_witness :
  ensure_python_runtime
    (Sample.linux "x86_64" (Some "/opt/py/bin/python3")
       [("python", "/usr/bin/python")])
    None "python-runtime" "linux" false (Sample.start ["/srv/app"])
  = (inr "/usr/bin/python",
     mkState ["/srv/app"]
       [EvExists "/opt/py/bin/python3"; EvWhich "/opt/py/bin/python3";
        EvExists "python3"; EvWhich "python3";
        EvExists "python"; EvWhich "python";
        EvPrint "Detected existing python interpreter: /usr/bin/python"]).
Proof.
  apply (auto_python_resolution
           (Sample.linux "x86_64" (Some "/opt/py/bin/python3")
              [("python", "/usr/bin/python")])
           None "python-runtime" "linux" false (Sample.start ["/srv/app"])
           eq_refl).
  reflexivity.
Defined.

(** C4 as stated fails: a generic name that exists as a path where the script
    runs is returned as it stands, ahead of what the search path holds. *)
Lemma search_path_probe_differs :
  fst (ensure_python_runtime
         (Sample.linux "x86_64" None [("python", "/usr/bin/python")])
         None "python-runtime" "linux" false (Sample.start ["python3"]))
  = inr "python3"
  /\ search_path_probe
       (Sample.linux "x86_64" None [("python", "/usr/bin/python")]) ["python3"]
     = Some "/usr/bin/python".
Proof. split; reflexivity. Qed.

Lemma ensure_python_runtime_explicit (h : Host)
  (p runtime_dir current_platform : string) (dry_run : bool) (s : State) :
  Str.truthy p = true ->
  ensure_python_runtime h (Some p) runtime_dir current_platform dry_run s
  = match expanduser_error h p with
    | Some msg => (inl (RuntimeError msg), s)
    | None =>
        let path := path_resolve h p in
        let notice :=
          EvPrint ("Using user-specified python interpreter: " ++ path) in
        if dry_run then (inr path, mkState (files s) (trace s ++ [notice]))
        else if Str.mem path (files s) then
          (inr path, mkState (files s) (trace s ++ [EvExists path; notice]))
        else
          (inl (FileNotFoundError
                  ("Specified python interpreter not found: " ++ path)),
           mkState (files s) (trace s ++ [EvExists path]))
    end.
Proof.
  intros Hp. unfold ensure_python_runtime. cbn [truthy_opt]. rewrite Hp.
  unfold resolve, bind at 1.
  destruct (expanduser_error h p) as [msg |]; [reflexivity |].
  destruct dry_run; run_monad; [reflexivity |].
  destruct (Str.mem (path_resolve h p) (files s)); cbn;
    [now rewrite <- app_assoc | reflexivity].
Qed.




(** ** ensure_venv *)

Lemma bind_assoc {A B C : Type} (m : M A) (f : A -> M B) (g : B -> M C)
  (s : State) :
  bind (bind m f) g s = bind m (fun x => bind (f x) g) s.
Proof. unfold bind. destruct (m s) as [[e | a] s']; reflexivity. Qed.

Lemma ensure_venv_stages (h : Host) (env_dir python_bin : string)
  (dry_run : bool) (s : State) :
  ensure_venv h env_dir python_bin dry_run s
  = match venv_creation h env_dir python_bin dry_run s with
    | (inl e, s1) => (inl e, s1)
    | (inr _, s1) =>
        if dry_run then (inr (env_python h env_dir), s1)
        else
          (if Str.mem (env_python h env_dir) (files s1)
           then inr (env_python h env_dir)
           else inl (cannot_locate (env_python h env_dir)),
           mkState (files s1) (trace s1 ++ [EvExists (env_python h env_dir)]))
    end.
Proof.
  transitivity
    (bind (venv_creation h env_dir python_bin dry_run)
       (fun _ =>
          missing <- (if negb dry_run then
                        found <- exists_ (env_python h env_dir) ;;
                        ret (negb found)
                      else ret false) ;;
          if missing then raise (cannot_locate (env_python h env_dir))
          else ret (env_python h env_dir)) s).
  { unfold venv_creation. rewrite bind_assoc. reflexivity. }
  unfold bind at 1.
  destruct (venv_creation h env_dir python_bin dry_run s) as [[e | []] s1];
    [reflexivity |].
  destruct dry_run; [reflexivity |].
  run_monad. destruct (Str.mem (env_python h env_dir) (files s1)); reflexivity.
Qed.

Lemma venv_creation_existing (h : Host) (env_dir python_bin : string)
  (dry_run : bool) (s : State) :
  In env_dir (files s) ->
  venv_creation h env_dir python_bin dry_run s
  = (inr tt,
     mkState (files s)
       (trace s ++
        [EvExists env_dir;
         EvPrint ("Using existing virtual environment at " ++ env_dir ++ ".")])).
Proof.
  intros Hin. apply mem_In in Hin. unfold venv_creation. run_monad.
  rewrite Hin. cbn. now rewrite <- app_assoc.
Qed.

(** C8 (amended): when the target directory exists, no command is run and no
    other creating action happens (the actions are one existence check, one
    message and, outside dry-run mode, the check of the environment's
    interpreter), the files are untouched, and the call succeeds when the run
    is a dry run or the environment's interpreter exists; when neither holds
    it fails with the cannot-locate error. *)
Theorem ensure_venv_existing (h : Host) (env_dir python_bin : string)
  (dry_run : bool) (s : State) :
  In env_dir (files s) ->
  let run := ensure_venv h env_dir python_bin dry_run s in
  let ep := env_python h env_dir in
  files (snd run) = files s
  /\ trace (snd run) =
       (trace s ++
        [EvExists env_dir;
         EvPrint ("Using existing virtual environment at " ++ env_dir ++ ".")]
        ++ (if dry_run then [] else [EvExists ep]))%list
  /\ (dry_run = true \/ In ep (files s) -> fst run = inr ep)
  /\ (dry_run = false -> ~ In ep (files s) -> fst run = inl (cannot_locate ep)).
Proof.
  intros Hin run ep. subst run.
  rewrite ensure_venv_stages, (venv_creation_existing h _ _ _ _ Hin).
  fold ep. destruct dry_run; cbn [fst snd files trace].
  - split; [reflexivity |]. split; [reflexivity |]. split.
    + reflexivity.
    + discriminate.
  - split; [reflexivity |]. split; [now rewrite <- app_assoc |]. split.
    + intros [H | H]; [discriminate |]. apply mem_In in H. now rewrite H.
    + intros _ H. apply mem_false in H. now rewrite H.
Qed.

Lemma ensure_venv_existing_witness :
  fst (ensure_venv (Sample.linux "x86_64" None []) "/srv/.venv"
         "/usr/bin/python3" false
         (Sample.start ["/srv/.venv"; "/srv/.venv/bin/python"]))
  = inr "/srv/.venv/bin/python".
Proof.
  apply (ensure_venv_existing (Sample.linux "x86_64" None []) "/srv/.venv"
           "/usr/bin/python3" false
           (Sample.start ["/srv/.venv"; "/srv/.venv/bin/python"])).
  - apply mem_In. reflexivity.
  - right. apply mem_In. reflexivity.
Defined.

(** C8 as stated fails: an existing directory without the environment's
    interpreter makes the call fail. *)
Lemma ensure_venv_existing_can_fail :
  ensure_venv (Sample.linux "x86_64" None []) "/srv/.venv" "/usr/bin/python3"
    false (Sample.start ["/srv/.venv"])
  = (inl (FileNotFoundError
            "Cannot locate interpreter inside venv: /srv/.venv/bin/python"),
     mkState ["/srv/.venv"]
       [EvExists "/srv/.venv";
        EvPrint "Using existing virtual environment at /srv/.venv.";
        EvExists "/srv/.venv/bin/python"]).
Proof. reflexivity. Qed.

(** C9: the environment's interpreter path is [env_dir/Scripts/python.exe]
    when [os.name] is [nt] and [env_dir/bin/python] otherwise.  Once the
    creation step has gone through, a run that is not a dry run checks that
    path: it is returned when it exists, and otherwise the call fails with
    the cannot-locate error naming it; a dry run returns the path without
    checking anything. *)
Theorem ensure_venv_postcondition (h : Host) (env_dir python_bin : string)
  (dry_run : bool) (s s1 : State) :
  venv_creation h env_dir python_bin dry_run s = (inr tt, s1) ->
  let ep := env_python h env_dir in
  (os_name h = "nt" ->
     ep = path_join h (path_join h env_dir "Scripts") "python.exe")
  /\ (os_name h <> "nt" ->
        ep = path_join h (path_join h env_dir "bin") "python")
  /\ (dry_run = false -> In ep (files s1) ->
        ensure_venv h env_dir python_bin dry_run s
          = (inr ep, mkState (files s1) (trace s1 ++ [EvExists ep])))
  /\ (dry_run = false -> ~ In ep (files s1) ->
        ensure_venv h env_dir python_bin dry_run s
          = (inl (FileNotFoundError
                    ("Cannot locate interpreter inside venv: " ++ ep)),
             mkState (files s1) (trace s1 ++ [EvExists ep])))
  /\ (dry_run = true ->
        ensure_venv h env_dir python_bin dry_run s = (inr ep, s1)).
Proof.
  intros Hc ep. rewrite ensure_venv_stages, Hc. fold ep.
  split; [| split; [| split; [| split]]].
  - intros Hnt. unfold ep, env_python. now rewrite Hnt.
  - intros Hnt. unfold ep, env_python.
    apply String.eqb_neq in Hnt. now rewrite Hnt.
  - intros -> Hin. apply mem_In in Hin. now rewrite Hin.
  - intros -> Hnin. apply mem_false in Hnin. now rewrite Hnin.
  - now intros ->.
Qed.

Lemma ensure_venv_postcondition_witness :
  ensure_venv (Sample.inert 0) "/srv/.venv" "/usr/bin/python3" false
    (Sample.start [])
  = (inl (FileNotFoundError
            "Cannot locate interpreter inside venv: /srv/.venv/bin/python"),
     mkState []
       [EvExists "/srv/.venv";
        EvPrint "Creating virtual environment at /srv/.venv...";
        EvPrint (nl ++ "$ /usr/bin/python3 -m venv /srv/.venv");
        EvSubprocess ["/usr/bin/python3"; "-m"; "venv"; "/srv/.venv"];
        EvExists "/srv/.venv/bin/python"]).
Proof.
  refine (proj1 (proj2 (proj2 (proj2
            (ensure_venv_postcondition (Sample.inert 0) "/srv/.venv"
               "/usr/bin/python3" false
               (Sample.start [])
               (mkState []
                  [EvExists "/srv/.venv";
                   EvPrint "Creating virtual environment at /srv/.venv...";
                   EvPrint (nl ++ "$ /usr/bin/python3 -m venv /srv/.venv");
                   EvSubprocess ["/usr/bin/python3"; "-m"; "venv"; "/srv/.venv"]])
               eq_refl)))) eq_refl _).
  intros H. apply mem_In in H. discriminate.
Defined.

(** ** Dry runs *)

Lemma install_miniforge_dry (h : Host) (runtime_dir current_platform : string)
  (s : State) :
  install_miniforge h runtime_dir current_platform true s
  = match build_miniforge_filename current_platform (platform_machine h) with
    | inl e => (inl e, s)
    | inr filename =>
        let tmpdir := mkdtemp h "python-bootstrap-" (files s) in
        (inr tt,
         mkState (rmtree h tmpdir (files s ++ [tmpdir]))
           (trace s ++
            [EvMkdtemp tmpdir;
             EvPrint ("Downloading " ++ MINIFORGE_BASE_URL ++ "/" ++ filename
                      ++ " -> " ++ path_join h tmpdir filename);
             EvRmtree tmpdir]))
    end.
Proof.
  unfold install_miniforge, bind at 1.
  destruct (build_miniforge_filename current_platform (platform_machine h))
    as [e | filename]; [reflexivity |].
  unfold lift, ret, with_tempdir, download_file. run_monad.
  now rewrite <- !app_assoc.
Qed.

Lemma gather_packages_not_nil (p : string) (extras : list string) :
  gather_packages p extras <> [].
Proof.
  rewrite gather_packages_shape. unfold platform_packages, BASE_LIBRARIES.
  discriminate.
Qed.

Lemma main_unresolved (h : Host) (args : Namespace) (s : State) (msg : string) :
  expanduser_error h (arg_env_dir args) = Some msg
  \/ (expanduser_error h (arg_env_dir args) = None
      /\ expanduser_error h (arg_runtime_dir args) = Some msg) ->
  main h args s = (inl (RuntimeError msg), s).
Proof.
  unfold main, resolve, bind.
  intros [He | [He Hr]]; rewrite He; [reflexivity |].
  cbn. now rewrite Hr.
Qed.

Lemma main_dry (h : Host) (args : Namespace) (s : State) :
  arg_dry_run args = true ->
  expanduser_error h (arg_env_dir args) = None ->
  expanduser_error h (arg_runtime_dir args) = None ->
  main h args s
  = match ensure_python_runtime h (arg_python_bin args)
            (path_resolve h (arg_runtime_dir args)) (determine_platform h)
            true s with
    | (inl e, s1) => (inl e, s1)
    | (inr py, s1) =>
        (inr tt,
         mkState (files s1) (trace s1 ++ plan_events h args py (files s1)))
    end.
Proof.
  intros Hdry He Hr. unfold main, resolve. rewrite Hdry, He, Hr.
  unfold bind at 1. cbn [ret]. unfold bind at 1. cbn [ret].
  unfold bind at 1.
  destruct (ensure_python_runtime h (arg_python_bin args) _ _ true s)
    as [[e | py] s1]; [reflexivity |].
  unfold plan_events, ensure_venv, upgrade_tooling, install_packages.
  fold (env_python h (path_resolve h (arg_env_dir args))).
  pose proof (gather_packages_not_nil (determine_platform h) (arg_extra args))
    as Hne.
  destruct (gather_packages (determine_platform h) (arg_extra args))
    as [| pkg packages] eqn:Hg; [contradiction |].
  unfold run_command. run_monad.
  destruct (Str.mem (path_resolve h (arg_env_dir args)) (files s1)); cbn;
    rewrite <- !app_assoc; reflexivity.
Qed.

Lemma read_only_dry_run_event (l : list event) :
  forallb read_only l = true -> forallb dry_run_event l = true.
Proof.
  induction l as [| e l IH]; [reflexivity |]. cbn.
  rewrite !andb_true_iff. intros [He Hl]. split; [| now apply IH].
  now destruct e.
Qed.

Lemma build_miniforge_filename_error (p machine : string) (e : exn) :
  build_miniforge_filename p machine = inl e ->
  e = unsupported_architecture machine p.
Proof.
  unfold build_miniforge_filename.
  destruct (String.eqb p "windows"), (String.eqb p "mac"),
    (Str.mem (Str.lower machine) x86_names),
    (Str.mem (Str.lower machine) arm_names); congruence.
Qed.

(** Interpreter resolution in a dry run performs dry-run actions only. *)
Lemma ensure_python_runtime_dry (h : Host) (explicit : option string)
  (runtime_dir current_platform : string) (s : State) :
  exists t,
    trace (snd (ensure_python_runtime h explicit runtime_dir current_platform
                  true s))
    = (trace s ++ t)%list
    /\ forallb dry_run_event t = true.
Proof.
  destruct (truthy_opt explicit) eqn:He.
  - destruct explicit as [p |]; [| discriminate]. cbn in He.
    rewrite (ensure_python_runtime_explicit h p _ _ _ s He).
    destruct (expanduser_error h p) as [msg |]; cbn [snd trace].
    + exists []. now rewrite app_nil_r.
    + eexists. split; reflexivity.
  - rewrite (ensure_python_runtime_auto h explicit _ _ _ _ He). cbn zeta.
    pose proof (probe_trace_read_only h (files s) (auto_candidates h)) as Hro.
    apply read_only_dry_run_event in Hro.
    destruct (first_match h (files s) (auto_candidates h)) as [p |].
    + cbn [snd trace]. eexists. rewrite <- app_assoc. split; [reflexivity |].
      rewrite forallb_app, Hro. reflexivity.
    + destruct (Str.mem (runtime_python h runtime_dir current_platform)
                  (files s)).
      * cbn [snd trace]. eexists. rewrite <- app_assoc.
        split; [reflexivity |]. rewrite forallb_app, Hro. reflexivity.
      * rewrite install_miniforge_dry.
        destruct (build_miniforge_filename current_platform (platform_machine h))
          as [e | f]; cbn [snd trace].
        -- eexists. rewrite <- app_assoc. split; [reflexivity |].
           rewrite forallb_app, Hro. reflexivity.
        -- eexists. rewrite <- !app_assoc. split; [reflexivity |].
           rewrite forallb_app, Hro. reflexivity.
Qed.

Lemma plan_events_dry (h : Host) (args : Namespace) (py : string)
  (fs : list string) :
  forallb dry_run_event (plan_events h args py fs) = true.
Proof.
  unfold plan_events. cbn zeta.
  destruct (Str.mem (path_resolve h (arg_env_dir args)) fs); reflexivity.
Qed.

(** C6 (amended): in a dry run the pipeline performs no network request, runs
    no subprocess, creates no download directory, writes no file and changes
    no mode: it only reads, prints, and creates and removes the installer
    stage's scoped temporary directory.  The run stops with the resolution
    error when the environment or the runtime directory cannot be resolved,
    and with the interpreter stage's error when that stage fails, as it does
    on an unsupported architecture once nothing else provides an
    interpreter.  When the interpreter stage returns, the run completes
    whichever way the check of the environment directory answers, and it has
    then printed the environment-creation command line (or the notice that
    the environment exists), the tooling-upgrade command line and the
    package-install command line. *)
Theorem dry_run_main (h : Host) (args : Namespace) (s : State) :
  arg_dry_run args = true ->
  let run := main h args s in
  let current_platform := determine_platform h in
  let env_dir := path_resolve h (arg_env_dir args) in
  let runtime_dir := path_resolve h (arg_runtime_dir args) in
  (exists t, trace (snd run) = (trace s ++ t)%list
             /\ forallb dry_run_event t = true)
  /\ (forall msg,
        expanduser_error h (arg_env_dir args) = Some msg
        \/ (expanduser_error h (arg_env_dir args) = None
            /\ expanduser_error h (arg_runtime_dir args) = Some msg) ->
        run = (inl (RuntimeError msg), s))
  /\ (expanduser_error h (arg_env_dir args) = None ->
      expanduser_error h (arg_runtime_dir args) = None ->
      (forall e s1,
         ensure_python_runtime h (arg_python_bin args) runtime_dir
           current_platform true s = (inl e, s1) ->
         run = (inl e, s1))
      /\ (truthy_opt (arg_python_bin args) = false ->
          first_match h (files s) (auto_candidates h) = None ->
          ~ In (runtime_python h runtime_dir current_platform) (files s) ->
          (forall f, build_miniforge_filename current_platform
                       (platform_machine h) <> inr f) ->
          fst run = inl (unsupported_architecture (platform_machine h)
                           current_platform))
      /\ (forall py s1,
            ensure_python_runtime h (arg_python_bin args) runtime_dir
              current_platform true s = (inr py, s1) ->
            (In env_dir (files s1) ->
             run = (inr tt,
                    mkState (files s1)
                      (trace s1 ++
                       [EvExists env_dir;
                        EvPrint ("Using existing virtual environment at "
                                 ++ env_dir ++ ".")]
                       ++ plan_tail h args)))
            /\ (~ In env_dir (files s1) ->
                run = (inr tt,
                       mkState (files s1)
                         (trace s1 ++
                          [EvExists env_dir;
                           EvPrint ("Creating virtual environment at "
                                    ++ env_dir ++ "...");
                           EvPrint (nl ++ "$ " ++
                                    Str.join " " [py; "-m"; "venv"; env_dir])]
                          ++ plan_tail h args))))).
Proof.
  intros Hdry run current_platform env_dir runtime_dir. subst run.
  split; [| split].
  - destruct (expanduser_error h (arg_env_dir args)) as [msg |] eqn:He.
    { rewrite (main_unresolved h args s msg) by now left.
      exists []. now rewrite app_nil_r. }
    destruct (expanduser_error h (arg_runtime_dir args)) as [msg |] eqn:Hr.
    { rewrite (main_unresolved h args s msg) by (right; now split).
      exists []. now rewrite app_nil_r. }
    rewrite (main_dry h args s Hdry He Hr).
    fold runtime_dir current_platform.
    destruct (ensure_python_runtime_dry h (arg_python_bin args) runtime_dir
                current_platform s) as (t & Ht & Hdt).
    destruct (ensure_python_runtime h (arg_python_bin args) runtime_dir
                current_platform true s) as [[e | py] s1];
      cbn [fst snd trace] in *.
    + now exists t.
    + exists (t ++ plan_events h args py (files s1))%list.
      rewrite Ht, <- app_assoc. split; [reflexivity |].
      now rewrite forallb_app, Hdt, plan_events_dry.
  - intros msg H. now apply main_unresolved.
  - intros He Hr. rewrite (main_dry h args s Hdry He Hr).
    fold runtime_dir current_platform. split; [| split].
    + intros e s1 Hrun. now rewrite Hrun.
    + intros Hex Hnone Hrp Hb. apply mem_false in Hrp.
      rewrite (ensure_python_runtime_auto h _ _ _ _ _ Hex). cbn zeta.
      rewrite Hnone, Hrp, install_miniforge_dry.
      destruct (build_miniforge_filename current_platform (platform_machine h))
        as [e | f] eqn:Hbuild.
      * cbn [fst]. f_equal. now apply build_miniforge_filename_error.
      * now destruct (Hb f).
    + intros py s1 Hrun. rewrite Hrun. unfold plan_events, plan_tail.
      fold env_dir. split.
      * intros Hin. apply mem_In in Hin. now rewrite Hin.
      * intros Hnin. apply mem_false in Hnin. now rewrite Hnin.
Qed.

Lemma dry_run_main_witness :
  fst (main (Sample.linux "x86_64" (Some "/usr/bin/python3") [])
         (Sample.args None true) (Sample.start ["/usr/bin/python3"]))
  = inr tt.
Proof.
  destruct (dry_run_main (Sample.linux "x86_64" (Some "/usr/bin/python3") [])
              (Sample.args None true) (Sample.start ["/usr/bin/python3"])
              eq_refl) as (_ & _ & H).
  destruct (H eq_refl eq_refl) as (_ & _ & Hdone).
  destruct (Hdone "/usr/bin/python3"
              (mkState ["/usr/bin/python3"]
                 [EvExists "/usr/bin/python3";
                  EvPrint
                    "Detected existing python interpreter: /usr/bin/python3"])
              eq_refl) as [_ Habsent].
  rewrite Habsent; [reflexivity |].
  intros Hin. apply mem_In in Hin. discriminate.
Defined.

(** C6 as stated fails: a dry run on an unsupported architecture with no
    interpreter at hand does not complete, a dry run that reaches the
    installer stage creates a temporary directory, and a dry run given a
    path that cannot be resolved does not complete. *)
Lemma dry_run_claim_fails :
  fst (main (Sample.linux "riscv64" None []) (Sample.args None true)
         (Sample.start []))
  = inl (RuntimeError
           "Unsupported architecture 'riscv64' for platform 'linux'.")
  /\ In (EvMkdtemp "/tmp/python-bootstrap-0")
       (trace (snd (main (Sample.linux "x86_64" None [])
                      (Sample.args None true) (Sample.start []))))
  /\ fst (main Sample.homeless (Sample.args (Some "~nosuchuser/python") true)
            (Sample.start []))
     = inl (RuntimeError "Could not determine home directory.").
Proof.
  split; [reflexivity |]. split; [| reflexivity].
  vm_compute. do 8 right. left. reflexivity.
Qed.

(** * Further properties of the code *)

(** ** download_file *)

Lemma download_file_real (h : Host) (url destination : string) (s : State) :
  download_file h url destination false s
  = let parent := path_parent h destination in
    let fs := if Str.mem parent (files s) then files s
              else (files s ++ [parent])%list in
    let started :=
      (trace s ++ [EvPrint ("Downloading " ++ url ++ " -> " ++ destination);
                   EvMkdir parent; EvUrlopen url])%list in
    match urlopen h url fs with
    | Some msg => (inl (OSError msg), mkState fs started)
    | None =>
        (inr tt,
         mkState (fs ++ [destination]) (started ++ [EvWriteFile destination]))
    end.
Proof.
  unfold download_file. run_monad.
  destruct (Str.mem (path_parent h destination) (files s)); cbn;
    match goal with
    | |- context [urlopen h url ?fs] => destruct (urlopen h url fs)
    end; cbn; rewrite <- !app_assoc; reflexivity.
Qed.

Lemma commands_of_app (t1 t2 : list event) :
  commands_of (t1 ++ t2) = (commands_of t1 ++ commands_of t2)%list.
Proof.
  induction t1 as [| e t1 IH]; [reflexivity |].
  destruct e; cbn; rewrite IH; reflexivity.
Qed.

Lemma requests_of_app (t1 t2 : list event) :
  requests_of (t1 ++ t2) = (requests_of t1 ++ requests_of t2)%list.
Proof.
  induction t1 as [| e t1 IH]; [reflexivity |].
  destruct e; cbn; rewrite IH; reflexivity.
Qed.

(** ** install_miniforge *)

Lemma install_miniforge_real (h : Host) (runtime_dir current_platform f : string)
  (s : State) :
  build_miniforge_filename current_platform (platform_machine h) = inr f ->
  install_miniforge h runtime_dir current_platform false s
  = let tmpdir := mkdtemp h "python-bootstrap-" (files s) in
    let installer := path_join h tmpdir f in
    let url := MINIFORGE_BASE_URL ++ "/" ++ f in
    let parent := path_parent h installer in
    let fs1 := (files s ++ [tmpdir])%list in
    let fs2 := if Str.mem parent fs1 then fs1 else (fs1 ++ [parent])%list in
    let requested :=
      (trace s ++
       [EvMkdtemp tmpdir;
        EvPrint ("Downloading " ++ url ++ " -> " ++ installer);
        EvMkdir parent; EvUrlopen url])%list in
    match urlopen h url fs2 with
    | Some msg =>
        (inl (OSError msg),
         mkState (rmtree h tmpdir fs2) (requested ++ [EvRmtree tmpdir]))
    | None =>
        let command := installer_command current_platform installer runtime_dir in
        let out := subprocess_run h command (fs2 ++ [installer]) in
        (match fst out with
         | NotStarted msg => inl (OSError msg)
         | Exited rc =>
             if (rc =? 0)%Z then inr tt
             else inl (command_failed rc (Str.join " " command))
         end,
         mkState (rmtree h tmpdir (snd out))
           (requested ++ [EvWriteFile installer] ++
            (if String.eqb current_platform "windows" then []
             else [EvChmod installer]) ++
            [EvPrint (nl ++ "$ " ++ Str.join " " command);
             EvSubprocess command; EvRmtree tmpdir]))
    end.
Proof.
  intros Hb. unfold install_miniforge, bind at 1. rewrite Hb.
  cbn [lift ret]. unfold with_tempdir, bind at 1.
  rewrite download_file_real. cbn zeta. cbn [files trace].
  set (tmpdir := mkdtemp h "python-bootstrap-" (files s)).
  set (installer := path_join h tmpdir f).
  set (parent := path_parent h installer).
  set (fs2 := if Str.mem parent (files s ++ [tmpdir])
              then (files s ++ [tmpdir])%list
              else ((files s ++ [tmpdir]) ++ [parent])%list).
  destruct (urlopen h (MINIFORGE_BASE_URL ++ "/" ++ f) fs2) as [msg |].
  - cbn. now rewrite <- !app_assoc.
  - unfold installer_command.
    destruct (String.eqb current_platform "windows").
    + rewrite run_command_real. cbn [fst snd files trace].
      f_equal. f_equal. rewrite <- !app_assoc. reflexivity.
    + unfold bind, emit. rewrite run_command_real. cbn [fst snd files trace].
      f_equal. f_equal. rewrite <- !app_assoc. reflexivity.
Qed.

(** X2: on a supported architecture the installer stage creates its temporary
    directory first and removes it last on every path, whether the run is a
    dry run, the download fails, the installer cannot be started, or the
    installer exits with any code. *)
Theorem install_miniforge_cleans_up (h : Host)
  (runtime_dir current_platform f : string) (dry_run : bool) (s : State) :
  build_miniforge_filename current_platform (platform_machine h) = inr f ->
  let run := install_miniforge h runtime_dir current_platform dry_run s in
  let tmpdir := mkdtemp h "python-bootstrap-" (files s) in
  exists (mid : list event) (left_over : list string),
    trace (snd run)
      = (trace s ++ EvMkdtemp tmpdir :: mid ++ [EvRmtree tmpdir])%list
    /\ files (snd run) = rmtree h tmpdir left_over.
Proof.
  intros Hb run tmpdir. subst run. destruct dry_run.
  - rewrite install_miniforge_dry, Hb. cbn zeta. fold tmpdir.
    eexists [_], _. cbn [snd files trace]. split; reflexivity.
  - rewrite (install_miniforge_real h _ _ f s Hb). cbn zeta. fold tmpdir.
    match goal with
    | |- context [urlopen h ?u ?fs] => destruct (urlopen h u fs) as [msg |]
    end; cbn [snd files trace].
    + eexists [_; _; _], _. rewrite <- app_assoc. split; reflexivity.
    + destruct (String.eqb current_platform "windows").
      * eexists [_; _; _; _; _; _], _. rewrite <- app_assoc.
        split; reflexivity.
      * eexists [_; _; _; _; _; _; _], _. rewrite <- app_assoc.
        split; reflexivity.
Qed.

Lemma install_miniforge_cleans_up_witness :
  exists (mid : list event) (left_over : list string),
    trace (snd (install_miniforge Sample.offline "python-runtime" "linux"
                  false (Sample.start [])))
      = (EvMkdtemp "/tmp/python-bootstrap-0" :: mid
           ++ [EvRmtree "/tmp/python-bootstrap-0"])%list
    /\ files (snd (install_miniforge Sample.offline "python-runtime" "linux"
                     false (Sample.start [])))
       = filter (fun p => negb (String.prefix "/tmp/python-bootstrap-0" p))
           left_over.
Proof.
  exact (install_miniforge_cleans_up Sample.offline "python-runtime" "linux"
           "Miniforge3-Linux-x86_64.sh" false (Sample.start []) eq_refl).
Defined.





(** ** gather_packages and build_miniforge_filename, continued *)

Lemma fold_add_extra_known (l acc : list string) :
  (forall x, In x l -> x = EmptyString \/ In x acc) ->
  fold_left add_extra l acc = acc.
Proof.
  induction l as [| x l IH]; intros H; [reflexivity |].
  cbn [fold_left]. unfold add_extra at 2.
  destruct (H x (or_introl eq_refl)) as [-> | Hin].
  - cbn. apply IH. intros y Hy. apply H. now right.
  - apply mem_In in Hin. rewrite Hin, andb_false_r.
    apply IH. intros y Hy. apply H. now right.
Qed.

Lemma fold_add_extra_fresh (l acc : list string) :
  NoDup l ->
  (forall x, In x l -> x <> EmptyString /\ ~ In x acc) ->
  fold_left add_extra l acc = (acc ++ l)%list.
Proof.
  revert acc. induction l as [| x l IH]; intros acc Hnd H.
  - cbn. now rewrite app_nil_r.
  - cbn [fold_left]. unfold add_extra at 2.
    destruct (H x (or_introl eq_refl)) as [Hne Hnin].
    apply truthy_nonempty in Hne. apply mem_false in Hnin.
    rewrite Hne, Hnin. cbn [andb negb].
    inversion Hnd as [| ? ? Hx Hl]; subst.
    rewrite IH; [now rewrite <- app_assoc | assumption |].
    intros y Hy. destruct (H y (or_intror Hy)) as [Hy1 Hy2].
    split; [assumption |]. intros Hin. apply in_app_or in Hin.
    destruct Hin as [Hin | [<- | []]]; contradiction.
Qed.

(** X6: gathering is idempotent: feeding the gathered list back in as the
    extras gives the same list, in the same order. *)
Theorem gather_packages_idempotent (p : string) (extras : list string) :
  gather_packages p (gather_packages p extras) = gather_packages p extras.
Proof.
  rewrite (gather_packages_shape p extras).
  set (pre := platform_packages p).
  set (tail := first_seen (filter (fresh_extra pre) extras)).
  unfold gather_packages. fold pre. rewrite fold_left_app.
  rewrite (fold_add_extra_known pre pre) by (intros x Hx; now right).
  apply fold_add_extra_fresh.
  - apply first_seen_NoDup.
  - intros x Hx. apply (proj1 (first_seen_In _ _)) in Hx.
    apply filter_In in Hx. destruct Hx as [_ Hx]. unfold fresh_extra in Hx.
    apply andb_true_iff in Hx. destruct Hx as [Ht Hm].
    split; [now apply truthy_nonempty | now apply mem_false, negb_true_iff].
Qed.

(** X7: the installer name depends on the machine string only through its
    lower-case form: two machine strings that agree up to letter case get
    the same installer name, or both get none. *)
Theorem build_miniforge_filename_case (p m1 m2 f : string) :
  Str.lower m1 = Str.lower m2 ->
  build_miniforge_filename p m1 = inr f <->
  build_miniforge_filename p m2 = inr f.
Proof.
  intros H. unfold build_miniforge_filename. rewrite H.
  destruct (String.eqb p "windows"), (String.eqb p "mac"),
    (Str.mem (Str.lower m2) x86_names), (Str.mem (Str.lower m2) arm_names);
    split; intros E; try exact E; discriminate.
Qed.

Lemma build_miniforge_filename_case_witness :
  build_miniforge_filename "mac" "ARM64" = inr "Miniforge3-MacOSX-arm64.sh" <->
  build_miniforge_filename "mac" "arm64" = inr "Miniforge3-MacOSX-arm64.sh".
Proof.
  exact (build_miniforge_filename_case "mac" "ARM64" "arm64"
           "Miniforge3-MacOSX-arm64.sh" eq_refl).
Defined.

Lemma build_miniforge_filename_linux (machine : string) :
  build_miniforge_filename "linux" machine
  = if Str.mem (Str.lower machine) x86_names
    then inr "Miniforge3-Linux-x86_64.sh"
    else if Str.mem (Str.lower machine) arm_names
         then inr "Miniforge3-Linux-aarch64.sh"
         else inl (unsupported_architecture machine "linux").
Proof. reflexivity. Qed.

(** X8: a platform tag other than [windows] and [mac] is treated as [linux],
    whatever it is; and an installer name that is returned is a Windows
    [.exe] name exactly for [windows], a MacOSX [.sh] name exactly for [mac]
    and a Linux [.sh] name for every other tag. *)
Theorem build_miniforge_filename_platforms (p machine f : string) :
  build_miniforge_filename p machine = inr f ->
  (p = "windows" /\
   In f ["Miniforge3-Windows-x86_64.exe"; "Miniforge3-Windows-arm64.exe"])
  \/ (p = "mac" /\
      In f ["Miniforge3-MacOSX-x86_64.sh"; "Miniforge3-MacOSX-arm64.sh"])
  \/ (p <> "windows" /\ p <> "mac"
      /\ In f ["Miniforge3-Linux-x86_64.sh"; "Miniforge3-Linux-aarch64.sh"]
      /\ build_miniforge_filename "linux" machine = inr f).
Proof.
  rewrite build_miniforge_filename_linux. unfold build_miniforge_filename.
  destruct (Str.mem (Str.lower machine) x86_names),
    (Str.mem (Str.lower machine) arm_names);
    (destruct (String.eqb_spec p "windows") as [Hw | Hw];
     [| destruct (String.eqb_spec p "mac") as [Hm | Hm]]);
    intros E; try discriminate; injection E as <-;
    first [ left; split; [assumption | cbn [In]; tauto]
          | right; left; split; [assumption | cbn [In]; tauto]
          | right; right; repeat split; try assumption; cbn [In]; tauto ].
Qed.

Lemma build_miniforge_filename_platforms_witness :
  build_miniforge_filename "linux" "x86_64" = inr "Miniforge3-Linux-x86_64.sh".
Proof.
  destruct (build_miniforge_filename_platforms "freebsd" "x86_64"
              "Miniforge3-Linux-x86_64.sh" eq_refl)
    as [[H _] | [[H _] | (_ & _ & _ & H)]];
    [discriminate | discriminate | exact H].
Defined.

(** ** The pip stages *)

Lemma run_command_commands (h : Host) (command : list string) (s : State) :
  commands_of (trace (snd (run_command h command false s)))
  = (commands_of (trace s) ++ [command])%list.
Proof.
  rewrite run_command_real. cbn [snd trace].
  rewrite commands_of_app. reflexivity.
Qed.

Lemma install_packages_real (h : Host) (env_python : string)
  (packages : list string) (s : State) :
  packages <> [] ->
  install_packages h env_python packages false s
  = run_command h (pip_install_command env_python packages) false
      (mkState (files s)
         (trace s ++
          [EvPrint ("Installing " ++ Str.of_Z (Z.of_nat (length packages))
                    ++ " packages...")])).
Proof.
  intros Hne. unfold install_packages.
  destruct packages as [| pkg packages]; [contradiction |]. reflexivity.
Qed.

(** X9: [install_packages] with an empty list prints a notice and runs
    nothing, even outside dry-run mode.  With a non-empty list it runs
    exactly one command, [<env python> -m pip install --upgrade] followed by
    every package in order, succeeds when that command exits with code zero
    and raises the command-failure error with the exit code and command line
    otherwise. *)
Theorem install_packages_batch (h : Host) (env_python : string)
  (packages : list string) (s : State) :
  (forall dry_run,
     install_packages h env_python [] dry_run s
     = (inr tt,
        mkState (files s) (trace s ++ [EvPrint "No packages requested."])))
  /\ (packages <> [] ->
      let command := pip_install_command env_python packages in
      let run := install_packages h env_python packages false s in
      commands_of (trace (snd run)) = (commands_of (trace s) ++ [command])%list
      /\ forall rc,
           fst (subprocess_run h command (files s)) = Exited rc ->
           fst run = if (rc =? 0)%Z then inr tt
                     else inl (RuntimeError
                                 ("Command failed (" ++ Str.of_Z rc ++ "): "
                                  ++ Str.join " " command))).
Proof.
  split; [reflexivity |].
  intros Hne command run. subst run.
  rewrite (install_packages_real h _ _ s Hne). fold command. split.
  - rewrite run_command_commands. cbn [trace].
    rewrite commands_of_app. cbn. now rewrite app_nil_r.
  - intros rc Hrc. rewrite run_command_real. cbn [fst files].
    now rewrite Hrc.
Qed.

Lemma install_packages_batch_witness :
  fst (install_packages (Sample.inert 1) "/srv/.venv/bin/python"
         ["requests"; "rich"] false (Sample.start []))
  = inl (RuntimeError
           ("Command failed (1): /srv/.venv/bin/python -m pip install "
            ++ "--upgrade requests rich")).
Proof.
  refine (proj2 (proj2 (install_packages_batch (Sample.inert 1)
                          "/srv/.venv/bin/python" ["requests"; "rich"]
                          (Sample.start [])) _) 1%Z eq_refl).
  discriminate.
Defined.

(** ** ensure_venv, continued *)

Lemma venv_creation_absent (h : Host) (env_dir python_bin : string)
  (dry_run : bool) (s : State) :
  ~ In env_dir (files s) ->
  venv_creation h env_dir python_bin dry_run s
  = run_command h [python_bin; "-m"; "venv"; env_dir] dry_run
      (mkState (files s)
         (trace s ++
          [EvExists env_dir;
           EvPrint ("Creating virtual environment at " ++ env_dir ++ "...")])).
Proof.
  intros Hnin. apply mem_false in Hnin.
  unfold venv_creation, exists_, bind, emit, get_files, ret, print.
  cbn [files trace]. rewrite Hnin. cbn [negb files trace].
  unfold emit. cbn [files trace]. now rewrite <- app_assoc.
Qed.

(** X10: when the environment directory is absent, a real run creates it with
    [<python> -m venv <dir>]; if that command exits with a non-zero code the
    call fails with the command-failure error carrying the code and command
    line, and the environment's interpreter is never looked for. *)
Theorem ensure_venv_creation_failure (h : Host) (env_dir python_bin : string)
  (rc : Z) (s : State) :
  ~ In env_dir (files s) ->
  fst (subprocess_run h [python_bin; "-m"; "venv"; env_dir] (files s))
    = Exited rc ->
  rc <> 0%Z ->
  let run := ensure_venv h env_dir python_bin false s in
  fst run = inl (RuntimeError
                   ("Command failed (" ++ Str.of_Z rc ++ "): "
                    ++ Str.join " " [python_bin; "-m"; "venv"; env_dir]))
  /\ trace (snd run)
     = (trace s ++
        [EvExists env_dir;
         EvPrint ("Creating virtual environment at " ++ env_dir ++ "...");
         EvPrint (nl ++ "$ " ++ Str.join " " [python_bin; "-m"; "venv"; env_dir]);
         EvSubprocess [python_bin; "-m"; "venv"; env_dir]])%list.
Proof.
  intros Hnin Hrc Hne run. subst run.
  rewrite ensure_venv_stages, (venv_creation_absent h _ _ _ s Hnin).
  rewrite run_command_real. cbn [fst snd files trace]. rewrite Hrc.
  apply Z.eqb_neq in Hne. rewrite Hne. cbn [fst snd trace].
  split; [reflexivity | now rewrite <- app_assoc].
Qed.

Lemma ensure_venv_creation_failure_witness :
  fst (ensure_venv (Sample.inert 1) "/srv/.venv" "/usr/bin/python3" false
         (Sample.start []))
  = inl (RuntimeError
           "Command failed (1): /usr/bin/python3 -m venv /srv/.venv").
Proof.
  refine (proj1 (ensure_venv_creation_failure (Sample.inert 1) "/srv/.venv"
                   "/usr/bin/python3" 1 (Sample.start []) _ eq_refl _)).
  - intros H. exact H.
  - discriminate.
Defined.

(** X11: in a dry run [ensure_venv] returns the environment's interpreter
    path whichever way the check of the directory answers: it then prints
    the notice or the creation command line, runs no command, never looks for
    the interpreter and leaves the files as they are. *)
Theorem ensure_venv_dry (h : Host) (env_dir python_bin : string) (s : State) :
  let ep := env_python h env_dir in
  (In env_dir (files s) ->
   ensure_venv h env_dir python_bin true s
   = (inr ep,
      mkState (files s)
        (trace s ++
         [EvExists env_dir;
          EvPrint ("Using existing virtual environment at "
                   ++ env_dir ++ ".")])))
  /\ (~ In env_dir (files s) ->
      ensure_venv h env_dir python_bin true s
      = (inr ep,
         mkState (files s)
           (trace s ++
            [EvExists env_dir;
             EvPrint ("Creating virtual environment at " ++ env_dir ++ "...");
             EvPrint (nl ++ "$ " ++
                      Str.join " " [python_bin; "-m"; "venv"; env_dir])]))).
Proof.
  intros ep. split.
  - intros Hin. rewrite ensure_venv_stages.
    now rewrite (venv_creation_existing h _ _ _ s Hin).
  - intros Hnin. rewrite ensure_venv_stages.
    rewrite (venv_creation_absent h _ _ _ s Hnin), run_command_dry.
    cbn [files trace]. now rewrite <- app_assoc.
Qed.

Lemma ensure_venv_dry_witness :
  ensure_venv (Sample.inert 0) "/srv/.venv" "/usr/bin/python3" true
    (Sample.start [])
  = (inr "/srv/.venv/bin/python",
     mkState []
       [EvExists "/srv/.venv";
        EvPrint "Creating virtual environment at /srv/.venv...";
        EvPrint (nl ++ "$ /usr/bin/python3 -m venv /srv/.venv")])
  /\ fst (ensure_venv (Sample.inert 0) "/srv/.venv" "/usr/bin/python3" true
            (Sample.start ["/srv/.venv"]))
     = inr "/srv/.venv/bin/python".
Proof.
  split.
  - apply (ensure_venv_dry (Sample.inert 0) "/srv/.venv" "/usr/bin/python3"
             (Sample.start [])).
    intros H. exact H.
  - rewrite (proj1 (ensure_venv_dry (Sample.inert 0) "/srv/.venv"
                      "/usr/bin/python3" (Sample.start ["/srv/.venv"])));
      [reflexivity | now left].
Defined.

(** ** main *)

Lemma main_stages (h : Host) (args : Namespace) (s : State) :
  expanduser_error h (arg_env_dir args) = None ->
  expanduser_error h (arg_runtime_dir args) = None ->
  main h args s
  = let dry_run := arg_dry_run args in
    let env_dir := path_resolve h (arg_env_dir args) in
    let runtime_dir := path_resolve h (arg_runtime_dir args) in
    let packages := gather_packages (determine_platform h) (arg_extra args) in
    match ensure_python_runtime h (arg_python_bin args) runtime_dir
            (determine_platform h) dry_run s with
    | (inl e, s1) => (inl e, s1)
    | (inr python_bin, s1) =>
        match ensure_venv h env_dir python_bin dry_run s1 with
        | (inl e, s2) => (inl e, s2)
        | (inr ep, s2) =>
            match upgrade_tooling h ep dry_run s2 with
            | (inl e, s3) => (inl e, s3)
            | (inr _, s3) =>
                match install_packages h ep packages dry_run s3 with
                | (inl e, s4) => (inl e, s4)
                | (inr _, s4) =>
                    (inr tt,
                     mkState (files s4)
                       (trace s4 ++
                        [EvPrint (nl ++ "Environment ready!");
                         EvPrint "Activate it with:";
                         EvPrint ("  " ++ activation_hint h env_dir)]))
                end
            end
        end
    end.
Proof.
  intros He Hr. unfold main, resolve. rewrite He, Hr. cbn zeta.
  unfold bind at 1. cbn [ret]. unfold bind at 1. cbn [ret].
  unfold bind at 1.
  destruct (ensure_python_runtime h _ _ _ _ s) as [[e | py] s1];
    [reflexivity |].
  unfold bind at 1.
  destruct (ensure_venv h _ py _ s1) as [[e | ep] s2]; [reflexivity |].
  unfold bind at 1.
  destruct (upgrade_tooling h ep _ s2) as [[e | []] s3]; [reflexivity |].
  unfold bind at 1.
  destruct (install_packages h ep _ _ s3) as [[e | []] s4]; [reflexivity |].
  unfold bind, print, emit, activation_hint. cbn [files trace].
  now rewrite <- !app_assoc.
Qed.

Lemma ensure_venv_real_commands (h : Host) (env_dir python_bin : string)
  (s : State) :
  let run := ensure_venv h env_dir python_bin false s in
  commands_of (trace (snd run))
  = (commands_of (trace s) ++
     (if Str.mem env_dir (files s) then []
      else [[python_bin; "-m"; "venv"; env_dir]]))%list
  /\ forall ep, fst run = inr ep -> ep = env_python h env_dir.
Proof.
  intros run. subst run. rewrite ensure_venv_stages.
  destruct (Str.mem env_dir (files s)) eqn:Hm.
  - apply mem_In in Hm. rewrite (venv_creation_existing h _ _ _ s Hm).
    cbn [fst snd files trace]. split.
    + rewrite !commands_of_app. cbn [commands_of]. now rewrite !app_nil_r.
    + intros ep. destruct (Str.mem (env_python h env_dir) (files s));
        congruence.
  - apply mem_false in Hm. rewrite (venv_creation_absent h _ _ _ s Hm).
    pose proof (run_command_commands h [python_bin; "-m"; "venv"; env_dir]
                  (mkState (files s)
                     (trace s ++
                      [EvExists env_dir;
                       EvPrint ("Creating virtual environment at "
                                ++ env_dir ++ "...")]))) as Hc.
    cbn [trace] in Hc. rewrite commands_of_app in Hc.
    cbn [commands_of] in Hc. rewrite app_nil_r in Hc.
    destruct (run_command h _ false _) as [[e | []] s1]; cbn [fst snd] in *.
    + split; [exact Hc | discriminate].
    + cbn [trace]. rewrite commands_of_app, Hc. cbn [commands_of].
      rewrite app_nil_r. split; [reflexivity |].
      intros ep. destruct (Str.mem (env_python h env_dir) (files s1));
        congruence.
Qed.

Lemma upgrade_tooling_commands (h : Host) (ep : string) (s : State) :
  commands_of (trace (snd (upgrade_tooling h ep false s)))
  = (commands_of (trace s) ++ [pip_upgrade_command ep])%list.
Proof.
  unfold upgrade_tooling, bind, print, emit.
  fold (pip_upgrade_command ep). rewrite run_command_commands.
  cbn [trace]. rewrite commands_of_app. cbn [commands_of].
  now rewrite app_nil_r.
Qed.

Lemma install_packages_commands (h : Host) (ep : string)
  (packages : list string) (s : State) :
  packages <> [] ->
  commands_of (trace (snd (install_packages h ep packages false s)))
  = (commands_of (trace s) ++ [pip_install_command ep packages])%list.
Proof.
  intros Hne. rewrite (install_packages_real h _ _ s Hne).
  rewrite run_command_commands. cbn [trace].
  rewrite commands_of_app. cbn [commands_of]. now rewrite app_nil_r.
Qed.

(** X12: once the directories and the interpreter are resolved, a real run
    issues its commands in one fixed order: the environment creation (only
    when the directory is absent), then the tooling upgrade, then the single
    package installation.  Whatever the outcome, the commands actually run
    are an initial part of that plan, and a run that succeeds has run all of
    it. *)
Theorem main_command_order (h : Host) (args : Namespace) (python_bin : string)
  (s s1 : State) :
  arg_dry_run args = false ->
  expanduser_error h (arg_env_dir args) = None ->
  expanduser_error h (arg_runtime_dir args) = None ->
  ensure_python_runtime h (arg_python_bin args)
    (path_resolve h (arg_runtime_dir args)) (determine_platform h) false s
    = (inr python_bin, s1) ->
  let env_dir := path_resolve h (arg_env_dir args) in
  let ep := env_python h env_dir in
  let planned :=
    ((if Str.mem env_dir (files s1) then []
      else [[python_bin; "-m"; "venv"; env_dir]])
     ++ [pip_upgrade_command ep;
         pip_install_command ep
           (gather_packages (determine_platform h) (arg_extra args))])%list in
  exists performed rest,
    planned = (performed ++ rest)%list
    /\ commands_of (trace (snd (main h args s)))
       = (commands_of (trace s1) ++ performed)%list
    /\ (fst (main h args s) = inr tt -> rest = []).
Proof.
  intros Hdry He Hr Hpy env_dir ep planned.
  rewrite (main_stages h args s He Hr). cbn zeta.
  rewrite Hdry, Hpy. fold env_dir.
  destruct (ensure_venv_real_commands h env_dir python_bin s1) as [Hv Hep].
  set (creation := if Str.mem env_dir (files s1) then []
                   else [[python_bin; "-m"; "venv"; env_dir]]) in *.
  destruct (ensure_venv h env_dir python_bin false s1) as [[e | ep'] s2];
    cbn [fst snd] in *.
  - exists creation, [pip_upgrade_command ep;
                      pip_install_command ep
                        (gather_packages (determine_platform h)
                           (arg_extra args))].
    repeat split; [assumption | discriminate].
  - rewrite (Hep ep' eq_refl). fold ep.
    pose proof (upgrade_tooling_commands h ep s2) as Hu.
    destruct (upgrade_tooling h ep false s2) as [[e | []] s3];
      cbn [fst snd] in *.
    + exists (creation ++ [pip_upgrade_command ep])%list,
        [pip_install_command ep
           (gather_packages (determine_platform h) (arg_extra args))].
      split; [unfold planned; now rewrite <- app_assoc |].
      split; [now rewrite Hu, Hv, <- app_assoc | discriminate].
    + pose proof (install_packages_commands h ep _ s3
                    (gather_packages_not_nil (determine_platform h)
                       (arg_extra args))) as Hi.
      exists planned, []. split; [now rewrite app_nil_r |].
      destruct (install_packages h ep _ false s3) as [[e | []] s4];
        cbn [fst snd trace] in *.
      * split; [| discriminate].
        rewrite Hi, Hu, Hv. unfold planned. now rewrite <- !app_assoc.
      * split; [| reflexivity].
        rewrite commands_of_app, Hi, Hu, Hv. cbn [commands_of].
        unfold planned. now rewrite app_nil_r, <- !app_assoc.
Qed.

Lemma main_command_order_witness :
  exists performed rest,
    [ ["/usr/bin/python3"; "-m"; "venv"; ".venv"];
      pip_upgrade_command ".venv/bin/python";
      pip_install_command ".venv/bin/python" BASE_LIBRARIES ]
    = (performed ++ rest)%list
    /\ commands_of
         (trace (snd (main (Sample.linux "x86_64" (Some "/usr/bin/python3") [])
                        (Sample.args None false)
                        (Sample.start ["/usr/bin/python3"]))))
       = performed
    /\ (fst (main (Sample.linux "x86_64" (Some "/usr/bin/python3") [])
               (Sample.args None false) (Sample.start ["/usr/bin/python3"]))
        = inr tt -> rest = []).
Proof.
  exact (main_command_order
           (Sample.linux "x86_64" (Some "/usr/bin/python3") [])
           (Sample.args None false) "/usr/bin/python3"
           (Sample.start ["/usr/bin/python3"])
           (mkState ["/usr/bin/python3"]
              [EvExists "/usr/bin/python3";
               EvPrint "Detected existing python interpreter: /usr/bin/python3"])
           eq_refl eq_refl eq_refl eq_refl).
Defined.

(** X13: a run that succeeds, dry or not, ends by printing the ready notice
    and the activation hint, which is [<env dir>\Scripts\activate] when the
    detected platform is [windows] and [source <env dir>/bin/activate]
    otherwise. *)
Theorem main_final_message (h : Host) (args : Namespace) (s : State) :
  fst (main h args s) = inr tt ->
  let env_dir := path_resolve h (arg_env_dir args) in
  exists t,
    trace (snd (main h args s))
    = (t ++ [EvPrint (nl ++ "Environment ready!");
             EvPrint "Activate it with:";
             EvPrint ("  " ++
                      (if String.eqb (determine_platform h) "windows"
                       then env_dir ++ "\Scripts\activate"
                       else "source " ++ env_dir ++ "/bin/activate"))])%list.
Proof.
  destruct (expanduser_error h (arg_env_dir args)) as [msg |] eqn:He.
  { rewrite (main_unresolved h args s msg) by now left. discriminate. }
  destruct (expanduser_error h (arg_runtime_dir args)) as [msg |] eqn:Hr.
  { rewrite (main_unresolved h args s msg) by (right; now split).
    discriminate. }
  rewrite (main_stages h args s He Hr). cbn zeta.
  destruct (ensure_python_runtime h _ _ _ _ s) as [[e | py] s1];
    [discriminate |].
  destruct (ensure_venv h _ py _ s1) as [[e | ep] s2]; [discriminate |].
  destruct (upgrade_tooling h ep _ s2) as [[e | []] s3]; [discriminate |].
  destruct (install_packages h ep _ _ s3) as [[e | []] s4]; [discriminate |].
  intros _. exists (trace s4). reflexivity.
Qed.

Lemma main_final_message_witness :
  exists t,
    trace (snd (main (Sample.linux "x86_64" (Some "/usr/bin/python3") [])
                  (Sample.args None true) (Sample.start ["/usr/bin/python3"])))
    = (t ++ [EvPrint (nl ++ "Environment ready!");
             EvPrint "Activate it with:";
             EvPrint "  source .venv/bin/activate"])%list.
Proof.
  exact (main_final_message
           (Sample.linux "x86_64" (Some "/usr/bin/python3") [])
           (Sample.args None true) (Sample.start ["/usr/bin/python3"])
           eq_refl).
Defined.

(** X14: a real run whose directories resolve and whose given interpreter
    path resolves to a path that does not exist stops at once with the
    not-found error naming the resolved path: the only action is the
    existence check of that path; no command is run, nothing is downloaded
    and the files are untouched.  When a directory cannot be resolved, the
    run stops even earlier, with the resolution error and no action at
    all. *)
Theorem main_missing_interpreter (h : Host) (args : Namespace) (p : string)
  (s : State) :
  (forall msg,
     expanduser_error h (arg_env_dir args) = Some msg
     \/ (expanduser_error h (arg_env_dir args) = None
         /\ expanduser_error h (arg_runtime_dir args) = Some msg) ->
     main h args s = (inl (RuntimeError msg), s))
  /\ (expanduser_error h (arg_env_dir args) = None ->
      expanduser_error h (arg_runtime_dir args) = None ->
      arg_python_bin args = Some p ->
      p <> EmptyString ->
      expanduser_error h p = None ->
      arg_dry_run args = false ->
      ~ In (path_resolve h p) (files s) ->
      main h args s
      = (inl (FileNotFoundError
                ("Specified python interpreter not found: "
                 ++ path_resolve h p)),
         mkState (files s) (trace s ++ [EvExists (path_resolve h p)]))).
Proof.
  split; [intros msg H; now apply main_unresolved |].
  intros He Hr Hbin Hne Hp Hdry Hnin. apply truthy_nonempty in Hne.
  apply mem_false in Hnin.
  rewrite (main_stages h args s He Hr). cbn zeta. rewrite Hbin, Hdry.
  rewrite (ensure_python_runtime_explicit h p _ _ _ s Hne). rewrite Hp.
  cbn zeta. now rewrite Hnin.
Qed.

Lemma main_missing_interpreter_witness :
  main (Sample.linux "x86_64" (Some "/usr/bin/python3") [])
    (Sample.args (Some "/nonexistent") false)
    (Sample.start ["/usr/bin/python3"])
  = (inl (FileNotFoundError
            "Specified python interpreter not found: /nonexistent"),
     mkState ["/usr/bin/python3"] [EvExists "/nonexistent"])
  /\ main Sample.homeless
       (mkArgs "~nosuchuser/venv" "python-runtime" None false [])
       (Sample.start [])
     = (inl (RuntimeError "Could not determine home directory."),
        Sample.start []).
Proof.
  split.
  - apply (main_missing_interpreter
             (Sample.linux "x86_64" (Some "/usr/bin/python3") [])
             (Sample.args (Some "/nonexistent") false) "/nonexistent"
             (Sample.start ["/usr/bin/python3"]));
      try reflexivity.
    + discriminate.
    + intros H. apply mem_In in H. discriminate.
  - apply (main_missing_interpreter Sample.homeless
             (mkArgs "~nosuchuser/venv" "python-runtime" None false [])
             "unused" (Sample.start [])).
    left. reflexivity.
Defined.

(** ** ensure_python_runtime, continued *)

Lemma read_only_silent (t : list event) :
  forallb read_only t = true -> commands_of t = [] /\ requests_of t = [].
Proof.
  induction t as [| e t IH]; [now split |].
  cbn [forallb]. rewrite andb_true_iff. intros [He Ht].
  destruct e; try discriminate; cbn; now apply IH.
Qed.

(** X15: whenever an interpreter is at hand (a non-empty path is given, a
    candidate is detected, or the portable runtime's interpreter exists),
    interpreter resolution runs no command, sends no request and leaves the
    files as they are, in a dry run and in a real one alike: the portable
    runtime is downloaded and installed only when nothing else is found. *)
Theorem ensure_python_runtime_no_install (h : Host) (explicit : option string)
  (runtime_dir current_platform : string) (dry_run : bool) (s : State) :
  truthy_opt explicit = true
  \/ first_match h (files s) (auto_candidates h) <> None
  \/ In (runtime_python h runtime_dir current_platform) (files s) ->
  let run :=
    ensure_python_runtime h explicit runtime_dir current_platform dry_run s in
  files (snd run) = files s
  /\ commands_of (trace (snd run)) = commands_of (trace s)
  /\ requests_of (trace (snd run)) = requests_of (trace s).
Proof.
  intros Hfound run. subst run.
  destruct (truthy_opt explicit) eqn:He.
  - destruct explicit as [p |]; [| discriminate]. cbn in He.
    rewrite (ensure_python_runtime_explicit h p _ _ _ s He).
    destruct (expanduser_error h p) as [msg |]; [now repeat split |].
    cbn zeta.
    destruct dry_run; [| destruct (Str.mem (path_resolve h p) (files s))];
      cbn [snd files trace]; rewrite commands_of_app, requests_of_app;
      cbn [commands_of requests_of]; now rewrite !app_nil_r.
  - rewrite (ensure_python_runtime_auto h explicit _ _ _ _ He). cbn zeta.
    destruct (read_only_silent _
                (probe_trace_read_only h (files s) (auto_candidates h)))
      as [Hc Hr].
    destruct (first_match h (files s) (auto_candidates h)) as [p |] eqn:Hf.
    + cbn [snd files trace].
      rewrite !commands_of_app, !requests_of_app, Hc, Hr.
      cbn [commands_of requests_of]. now rewrite !app_nil_r.
    + destruct Hfound as [H | [H | H]]; [discriminate | congruence |].
      apply mem_In in H. rewrite H. cbn [snd files trace].
      rewrite !commands_of_app, !requests_of_app, Hc, Hr.
      cbn [commands_of requests_of]. now rewrite !app_nil_r.
Qed.

Lemma ensure_python_runtime_no_install_witness :
  files (snd (ensure_python_runtime (Sample.bare "x86_64") None
                "python-runtime" "linux" false
                (Sample.start ["python-runtime/bin/python"])))
    = ["python-runtime/bin/python"]
  /\ commands_of
       (trace (snd (ensure_python_runtime (Sample.bare "x86_64") None
                      "python-runtime" "linux" false
                      (Sample.start ["python-runtime/bin/python"]))))
     = []
  /\ requests_of
       (trace (snd (ensure_python_runtime (Sample.bare "x86_64") None
                      "python-runtime" "linux" false
                      (Sample.start ["python-runtime/bin/python"]))))
     = [].
Proof.
  apply (ensure_python_runtime_no_install (Sample.bare "x86_64") None
           "python-runtime" "linux" false
           (Sample.start ["python-runtime/bin/python"])).
  right. right. apply mem_In. reflexivity.
Defined.



